(** * Battery health report: a shallow embedding of [battery_report.py]

    The module under study is the class [BatteryReport]: it is built from one
    diagnostic dictionary, computes the State of Health (SoH) of the pack,
    runs three anomaly detectors and assembles a report dictionary.

    Python floats are IEEE 754 binary64 numbers; they are embedded as the
    primitive [float] type, whose operations are the processor's.  Python
    integers are embedded as [Z].  Exceptions are embedded in an error monad,
    so that "never raises" is a statement about the code and not about the
    embedding. *)

From Stdlib Require Import ZArith List Bool String Lia Permutation.
From Stdlib Require Import Floats.
Import ListNotations.

(** A decimal literal denotes the nearest binary64 number, in Python and
    here alike. *)
Set Warnings "-inexact-float".

Local Open Scope Z_scope.

(** ** The fragment of the Python runtime the class relies on *)

Module Py.

(** The built-in exceptions the operations below can raise. *)
Inductive exn : Type :=
| ZeroDivisionError
| OverflowError
| ValueError.

Inductive result (A : Type) : Type :=
| Ok (a : A)
| Raise (e : exn).

Arguments Ok {A} a.
Arguments Raise {A} e.

Definition bind {A B : Type} (m : result A) (k : A -> result B) : result B :=
  match m with
  | Ok a => k a
  | Raise e => Raise e
  end.

(** A Python number is an [int] or a [float]. *)
Inductive num : Type :=
| Int (z : Z)
| Float (f : float).

(** [a > b] and [a < b] on floats are the IEEE comparisons: both are
    false as soon as one operand is NaN. *)
Definition float_gt (a b : float) : bool := (b <? a)%float.
Definition float_lt (a b : float) : bool := (a <? b)%float.

(** [x == 0] where [0] is the integer literal.  A float equals the integer
    zero exactly when it is one of the two IEEE zeros. *)
Definition eq_zero (x : num) : bool :=
  match x with
  | Int z => z =? 0
  | Float f => (f =? 0)%float
  end.

(** The integer [z] as an unrounded binary number [z * 2^0]. *)
Definition sf_of_Z (z : Z) : spec_float :=
  match z with
  | Z0 => S754_zero false
  | Zpos p => S754_finite false p 0
  | Zneg p => S754_finite true p 0
  end.

Definition sf_overflows (x : spec_float) : bool :=
  match x with
  | S754_infinity _ => true
  | _ => false
  end.

(** [float(z)]: the nearest float, ties to even; [OverflowError] when the
    integer is too large for a float. *)
Definition float_of_int (z : Z) : result float :=
  let r := binary_normalize prec emax z 0 false in
  if sf_overflows r then Raise OverflowError else Ok (SF2Prim r).

(** Float division, as [float.__truediv__]: a zero divisor raises. *)
Definition float_div (a b : float) : result float :=
  if (b =? 0)%float then Raise ZeroDivisionError else Ok (a / b)%float.

(** [a / b], true division.  Two integers give the correctly rounded
    quotient; otherwise the integer operand is converted first. *)
Definition truediv (a b : num) : result float :=
  match a, b with
  | Float x, Float y => float_div x y
  | Int x, Float y => bind (float_of_int x) (fun x' => float_div x' y)
  | Float x, Int y => bind (float_of_int y) (fun y' => float_div x y')
  | Int x, Int y =>
      if y =? 0 then Raise ZeroDivisionError
      else
        let r := SFdiv prec emax (sf_of_Z x) (sf_of_Z y) in
        if sf_overflows r then Raise OverflowError else Ok (SF2Prim r)
  end.

(** [f * z] for a float [f] and an integer [z]. *)
Definition float_mul_int (f : float) (z : Z) : result float :=
  bind (float_of_int z) (fun z' => Ok (f * z')%float).

(** *** [round(x, ndigits)] for [ndigits >= 0]

    CPython rounds a finite float to [ndigits] decimals in two correctly
    rounded steps: the exact binary value is rounded to a decimal numeral
    with [ndigits] fractional digits (ties to even), and that numeral is
    read back as the nearest float.  NaN, the infinities and the zeros
    round to themselves.  A finite float [m * 2^e] with [e >= 0] is an
    integer: both steps are exact on it, and no rounded value is too large
    to be a float. *)

(** [round_half_even p q]: the integer nearest to [p / q], ties to even. *)
Definition round_half_even (p q : Z) : Z :=
  let k := p / q in
  let r := p mod q in
  match 2 * r ?= q with
  | Lt => k
  | Gt => k + 1
  | Eq => if Z.even k then k else k + 1
  end.

(** The numerator [n] of the decimal [n / 10^ndigits] nearest to [m * 2^e]. *)
Definition decimal_numerator (m : positive) (e : Z) (ndigits : N) : Z :=
  if 0 <=? e then Zpos m * 2 ^ e * 10 ^ Z.of_N ndigits
  else round_half_even (Zpos m * 10 ^ Z.of_N ndigits) (2 ^ (- e)).

(** The float nearest to [(-1)^s * n / d]. *)
Definition nearest_float (s : bool) (n d : Z) : spec_float :=
  match n with
  | Zpos p => SFdiv prec emax (S754_finite s p 0) (sf_of_Z d)
  | _ => S754_zero s
  end.

Definition round (x : float) (ndigits : N) : float :=
  match Prim2SF x with
  | S754_finite s m e =>
      if 0 <=? e then x
      else SF2Prim (nearest_float s (decimal_numerator m e ndigits) (10 ^ Z.of_N ndigits))
  | _ => x
  end.

(** [max(l)] and [min(l)] over a list: the first element is the candidate,
    and a later element replaces it when it compares strictly greater
    (respectively smaller).  An empty argument raises [ValueError]. *)
Definition max_step (best x : float) : float := if float_gt x best then x else best.
Definition min_step (best x : float) : float := if float_lt x best then x else best.

Definition max (l : list float) : result float :=
  match l with
  | [] => Raise ValueError
  | x :: l' => Ok (fold_left max_step l' x)
  end.

Definition min (l : list float) : result float :=
  match l with
  | [] => Raise ValueError
  | x :: l' => Ok (fold_left min_step l' x)
  end.

End Py.

Notation "x <- m ;; k" := (Py.bind m (fun x => k))
  (at level 61, m at next level, right associativity).

Local Open Scope string_scope.

(** ** The data model *)

(** One entry of the [cells] list: [{"id": ..., "voltage": ..., "temperature": ...}]. *)
Record cell : Type := {
  cell_id : Z;
  voltage : float;
  temperature : float
}.

(** The diagnostic dictionary handed to the constructor.  A key may be
    absent, which is what [dict.get] tests for. *)
Module DiagnosticData.

Record t : Type := {
  vehicle_id : option string;
  timestamp : option string;
  cells : option (list cell);
  cycle_count : option Z;
  nominal_capacity_kwh : option float;
  current_capacity_kwh : option float
}.

(** [d.get(key, default)] on the entry of [key]: the value stored there, seen
    through [inj] as a value of the type of [default], or [default]. *)
Definition get {A B : Type} (entry : option A) (inj : A -> B) (default : B) : B :=
  match entry with
  | Some v => inj v
  | None => default
  end.

End DiagnosticData.

(** The values stored in the report dictionary, and the dictionary itself:
    a dict literal keeps its keys in the order they are written. *)
Inductive value : Type :=
| VFloat (f : float)
| VInt (z : Z)
| VList (l : list string).

Definition dict : Type := list (string * value).

Definition keys (d : dict) : list string := map fst d.

Fixpoint lookup (k : string) (d : dict) : option value :=
  match d with
  | [] => None
  | (k', v) :: d' => if String.eqb k k' then Some v else lookup k d'
  end.

(** ** The class [BatteryReport] *)

(** The instance attributes set by [__init__]. *)
Record BatteryReport : Type := {
  data : DiagnosticData.t;
  cells : list cell;
  cycle_count : Z;
  nominal_capacity : Py.num;
  current_capacity : Py.num
}.

Definition VOLTAGE_IMBALANCE_THRESHOLD : float := 0.05.
Definition OVERHEATING_THRESHOLD : float := 45.0.
Definition LOW_HEALTH_THRESHOLD : float := 80.0.

Definition __init__ (diagnostic_data : DiagnosticData.t) : BatteryReport :=
  {| data := diagnostic_data;
     cells := DiagnosticData.get (DiagnosticData.cells diagnostic_data) id [];
     cycle_count := DiagnosticData.get (DiagnosticData.cycle_count diagnostic_data) id 0;
     nominal_capacity :=
       DiagnosticData.get (DiagnosticData.nominal_capacity_kwh diagnostic_data) Py.Float (Py.Int 0);
     current_capacity :=
       DiagnosticData.get (DiagnosticData.current_capacity_kwh diagnostic_data) Py.Float (Py.Int 0) |}.

Definition calculate_state_of_health (self : BatteryReport) : Py.result float :=
  if Py.eq_zero (nominal_capacity self) then Py.Ok 0%float
  else
    ratio <- Py.truediv (current_capacity self) (nominal_capacity self) ;;
    soh <- Py.float_mul_int ratio 100 ;;
    Py.Ok (Py.round soh 2).

Definition detect_voltage_imbalance (self : BatteryReport) : Py.result bool :=
  match cells self with
  | [] => Py.Ok false
  | _ :: _ =>
      let voltages := map voltage (cells self) in
      hi <- Py.max voltages ;;
      lo <- Py.min voltages ;;
      let voltage_range := (hi - lo)%float in
      Py.Ok (Py.float_gt voltage_range VOLTAGE_IMBALANCE_THRESHOLD)
  end.

(** The [for] loop of [detect_overheating]: it returns at the first hot cell. *)
Fixpoint overheating_loop (cs : list cell) : bool :=
  match cs with
  | [] => false
  | c :: rest =>
      if Py.float_gt (temperature c) OVERHEATING_THRESHOLD then true
      else overheating_loop rest
  end.

Definition detect_overheating (self : BatteryReport) : bool :=
  match cells self with
  | [] => false
  | _ :: _ => overheating_loop (cells self)
  end.

Definition detect_low_health (self : BatteryReport) (soh : float) : bool :=
  Py.float_lt soh LOW_HEALTH_THRESHOLD.

(** [anomalies.append(label)] when [flag] holds. *)
Definition append_if (flag : bool) (label : string) (anomalies : list string) : list string :=
  if flag then anomalies ++ [label] else anomalies.

Definition detect_anomalies (self : BatteryReport) (soh : float) : Py.result (list string) :=
  let anomalies := [] in
  imbalance <- detect_voltage_imbalance self ;;
  let anomalies := append_if imbalance "Voltage imbalance detected" anomalies in
  let anomalies := append_if (detect_overheating self) "Overheating detected" anomalies in
  let anomalies := append_if (detect_low_health self soh) "Low State of Health" anomalies in
  Py.Ok anomalies.

Definition generate_report (self : BatteryReport) : Py.result dict :=
  soh <- calculate_state_of_health self ;;
  anomalies <- detect_anomalies self soh ;;
  let report :=
    [ ("battery_soh", VFloat soh);
      ("cycle_count", VInt (cycle_count self));
      ("anomalies", VList anomalies) ] in
  Py.Ok report.

(** ** Vocabulary of the specification *)

(** The three anomaly labels, in the order the detectors are consulted. *)
Definition anomaly_labels : list string :=
  [ "Voltage imbalance detected"; "Overheating detected"; "Low State of Health" ].

(** The labels selected by three detector outcomes. *)
Definition labels_of (imbalance overheating low_health : bool) : list string :=
  (if imbalance then ["Voltage imbalance detected"] else [])
  ++ (if overheating then ["Overheating detected"] else [])
  ++ (if low_health then ["Low State of Health"] else []).

(** [subsequence l1 l2]: [l1] is [l2] with some elements left out. *)
Inductive subsequence {A : Type} : list A -> list A -> Prop :=
| subsequence_nil : subsequence [] []
| subsequence_skip : forall x l1 l2, subsequence l1 l2 -> subsequence l1 (x :: l2)
| subsequence_keep : forall x l1 l2, subsequence l1 l2 -> subsequence (x :: l1) (x :: l2).

(** The capacity a dictionary entry stands for when it is read as a float:
    an absent entry is the integer [0], which division converts to [0.0]. *)
Definition capacity (entry : option float) : float :=
  match entry with
  | Some f => f
  | None => 0%float
  end.

(** The State of Health the specification prescribes for a snapshot. *)
Definition expected_soh (d : DiagnosticData.t) : float :=
  let current := capacity (DiagnosticData.current_capacity_kwh d) in
  let nominal := capacity (DiagnosticData.nominal_capacity_kwh d) in
  if (nominal =? 0)%float then 0%float
  else Py.round (current / nominal * 100)%float 2.

(** The report dictionary with the given three components. *)
Definition report_of (soh : float) (cycles : Z) (anomalies : list string) : dict :=
  [ ("battery_soh", VFloat soh); ("cycle_count", VInt cycles); ("anomalies", VList anomalies) ].

(** The same dictionary with one entry replaced. *)
Definition set_vehicle_id (v : option string) (d : DiagnosticData.t) : DiagnosticData.t :=
  {| DiagnosticData.vehicle_id := v;
     DiagnosticData.timestamp := DiagnosticData.timestamp d;
     DiagnosticData.cells := DiagnosticData.cells d;
     DiagnosticData.cycle_count := DiagnosticData.cycle_count d;
     DiagnosticData.nominal_capacity_kwh := DiagnosticData.nominal_capacity_kwh d;
     DiagnosticData.current_capacity_kwh := DiagnosticData.current_capacity_kwh d |}.

Definition set_timestamp (t : option string) (d : DiagnosticData.t) : DiagnosticData.t :=
  {| DiagnosticData.vehicle_id := DiagnosticData.vehicle_id d;
     DiagnosticData.timestamp := t;
     DiagnosticData.cells := DiagnosticData.cells d;
     DiagnosticData.cycle_count := DiagnosticData.cycle_count d;
     DiagnosticData.nominal_capacity_kwh := DiagnosticData.nominal_capacity_kwh d;
     DiagnosticData.current_capacity_kwh := DiagnosticData.current_capacity_kwh d |}.

Definition set_cycle_count (n : option Z) (d : DiagnosticData.t) : DiagnosticData.t :=
  {| DiagnosticData.vehicle_id := DiagnosticData.vehicle_id d;
     DiagnosticData.timestamp := DiagnosticData.timestamp d;
     DiagnosticData.cells := DiagnosticData.cells d;
     DiagnosticData.cycle_count := n;
     DiagnosticData.nominal_capacity_kwh := DiagnosticData.nominal_capacity_kwh d;
     DiagnosticData.current_capacity_kwh := DiagnosticData.current_capacity_kwh d |}.

Definition set_cells (cs : option (list cell)) (d : DiagnosticData.t) : DiagnosticData.t :=
  {| DiagnosticData.vehicle_id := DiagnosticData.vehicle_id d;
     DiagnosticData.timestamp := DiagnosticData.timestamp d;
     DiagnosticData.cells := cs;
     DiagnosticData.cycle_count := DiagnosticData.cycle_count d;
     DiagnosticData.nominal_capacity_kwh := DiagnosticData.nominal_capacity_kwh d;
     DiagnosticData.current_capacity_kwh := DiagnosticData.current_capacity_kwh d |}.

(** The dictionary in which every absent entry read by the constructor is
    written out: the empty list for [cells], zero for the other three. *)
Definition with_defaults (d : DiagnosticData.t) : DiagnosticData.t :=
  {| DiagnosticData.vehicle_id := DiagnosticData.vehicle_id d;
     DiagnosticData.timestamp := DiagnosticData.timestamp d;
     DiagnosticData.cells := Some (DiagnosticData.get (DiagnosticData.cells d) id []);
     DiagnosticData.cycle_count := Some (DiagnosticData.get (DiagnosticData.cycle_count d) id 0);
     DiagnosticData.nominal_capacity_kwh :=
       Some (capacity (DiagnosticData.nominal_capacity_kwh d));
     DiagnosticData.current_capacity_kwh :=
       Some (capacity (DiagnosticData.current_capacity_kwh d)) |}.

(** A snapshot none of whose keys read by the constructor is present. *)
Definition bare_snapshot (v t : option string) : DiagnosticData.t :=
  {| DiagnosticData.vehicle_id := v;
     DiagnosticData.timestamp := t;
     DiagnosticData.cells := None;
     DiagnosticData.cycle_count := None;
     DiagnosticData.nominal_capacity_kwh := None;
     DiagnosticData.current_capacity_kwh := None |}.

(** No voltage reading is NaN. *)
Definition no_nan_voltage (cs : list cell) : Prop :=
  Forall (fun c => is_nan (voltage c) = false) cs.

(** ** Sample snapshots *)

Definition reading (n : Z) (v t : float) : cell :=
  {| cell_id := n; voltage := v; temperature := t |}.

(** A complete snapshot, with the identification of the test fixture. *)
Definition snapshot (cs : list cell) (cycles : Z) (nominal current : float) : DiagnosticData.t :=
  {| DiagnosticData.vehicle_id := Some "EV-TEST-001";
     DiagnosticData.timestamp := Some "2025-10-04T10:00:00Z";
     DiagnosticData.cells := Some cs;
     DiagnosticData.cycle_count := Some cycles;
     DiagnosticData.nominal_capacity_kwh := Some nominal;
     DiagnosticData.current_capacity_kwh := Some current |}.

Definition base_cells : list cell :=
  [ reading 0 4.0 30.0; reading 1 4.0 31.0; reading 2 4.0 32.0 ]%float.

(** The fixture of the unit tests. *)
Definition base_data : DiagnosticData.t := snapshot base_cells 300 60.0 54.0.

(** Three cells, one of which reports NaN for its voltage, in two orders. *)
Definition nan_first : list cell :=
  [ reading 0 nan 30.0; reading 1 1.0 30.0; reading 2 2.0 30.0 ]%float.

Definition nan_last : list cell :=
  [ reading 1 1.0 30.0; reading 2 2.0 30.0; reading 0 nan 30.0 ]%float.

(** ** Auxiliary notions on unfolded floats *)

Definition sf_is_nan (x : spec_float) : bool :=
  match x with
  | S754_nan => true
  | _ => false
  end.

Definition sf_is_zero (x : spec_float) : bool :=
  match x with
  | S754_zero _ => true
  | _ => false
  end.

(** Equal, or the two zeros: what the IEEE comparison cannot tell apart. *)
Definition sf_equiv (x y : spec_float) : Prop :=
  x = y \/ (sf_is_zero x = true /\ sf_is_zero y = true).

Definition no_nan (l : list float) : Prop := Forall (fun v => is_nan v = false) l.

(** Case analysis on every integer comparison in sight. *)
Ltac split_compare :=
  repeat match goal with
  | H : context [Pos.compare_cont Eq ?a ?b] |- _ =>
      change (Pos.compare_cont Eq a b) with (Pos.compare a b) in H
  | |- context [Pos.compare_cont Eq ?a ?b] =>
      change (Pos.compare_cont Eq a b) with (Pos.compare a b)
  end;
  repeat match goal with
  | H : context [Z.compare ?a ?b] |- _ => destruct (Z.compare_spec a b)
  | |- context [Z.compare ?a ?b] => destruct (Z.compare_spec a b)
  | H : context [Pos.compare ?a ?b] |- _ => destruct (Pos.compare_spec a b)
  | |- context [Pos.compare ?a ?b] => destruct (Pos.compare_spec a b)
  end;
  simpl in *; try discriminate; try reflexivity; try lia.

(** ** The mock data generator of [data_simulator.py] *)

From Stdlib Require Import DecimalString.

(** *** The module [random], as the generator uses it

    The generator draws from Python's global random source.  The source is
    embedded as a state [G] threaded through the draws, with one operation
    per function of the module the generator calls. *)
Module Random.

Record source (G : Type) : Type := {
  random : G -> float * G;
  uniform : float -> float -> G -> float * G;
  gauss : float -> float -> G -> float * G;
  randint_draw : Z -> Z -> G -> Z * G
}.

Arguments random {G} _ _.
Arguments uniform {G} _ _ _ _.
Arguments gauss {G} _ _ _ _.
Arguments randint_draw {G} _ _ _ _.

(** What the library documents of its results: [randint(a, b)] is an integer
    [N] with [a <= N <= b], and [uniform(a, b)] a float [N] with
    [a <= N <= b] when [a <= b].  Nothing is assumed of [random()] and of
    [gauss(mu, sigma)]. *)
Record lawful {G : Type} (R : source G) : Prop := {
  randint_range : forall a b g, (a <= b)%Z -> (a <= fst (randint_draw R a b g) <= b)%Z;
  uniform_range : forall a b g, (a <=? b)%float = true ->
    (a <=? fst (uniform R a b g))%float = true /\
    (fst (uniform R a b g) <=? b)%float = true
}.

End Random.

(** *** Computations that draw and may raise *)
Module Sim.

Inductive exn : Type :=
| ValueError
| IndexError.

Definition M (G A : Type) : Type := G -> exn + A * G.

Definition ret {G A : Type} (a : A) : M G A := fun g => inr (a, g).

Definition raise {G A : Type} (e : exn) : M G A := fun _ => inl e.

Definition bind {G A B : Type} (m : M G A) (k : A -> M G B) : M G B :=
  fun g =>
    match m g with
    | inl e => inl e
    | inr (a, g') => k a g'
    end.

(** A draw from the source never raises. *)
Definition draw {G A : Type} (f : G -> A * G) : M G A := fun g => inr (f g).

End Sim.

Declare Scope sim_scope.
Delimit Scope sim_scope with sim.
Notation "x <- m ;; k" := (Sim.bind m (fun x => k))
  (at level 61, m at next level, right associativity) : sim_scope.

(** [random.randint(a, b)]: an empty range raises [ValueError]. *)
Definition randint {G : Type} (R : Random.source G) (a b : Z) : Sim.M G Z :=
  if (a <=? b)%Z then Sim.draw (Random.randint_draw R a b) else Sim.raise Sim.ValueError.

(** [max(a, b)] and [min(a, b)] with two positional arguments: the first is
    the candidate and the second replaces it when it compares strictly
    greater (respectively smaller). *)
Definition max_of (a b : float) : float := Py.max_step a b.
Definition min_of (a b : float) : float := Py.min_step a b.

(** [range(n)] *)
Definition range (n : Z) : list Z := map Z.of_nat (seq 0 (Z.to_nat n)).

(** [for x in l: body], the loop state threaded through the iterations. *)
Fixpoint for_each {G A S : Type} (l : list A) (body : A -> S -> Sim.M G S) (s : S)
  : Sim.M G S :=
  match l with
  | [] => Sim.ret s
  | x :: l' => Sim.bind (body x s) (for_each l' body)
  end.

(** [str(n)] for an integer: its decimal numeral. *)
Definition str_of_int (n : Z) : string := NilZero.string_of_int (Z.to_int n).

(** The position a list of length [len] gives to the index [i]: a negative
    index counts from the end, and an index out of range has no position. *)
Definition list_position (len : nat) (i : Z) : option nat :=
  let i' := if (i <? 0)%Z then (i + Z.of_nat len)%Z else i in
  if (0 <=? i')%Z && (i' <? Z.of_nat len)%Z then Some (Z.to_nat i') else None.

Fixpoint update_at {A : Type} (n : nat) (f : A -> A) (l : list A) : list A :=
  match l, n with
  | [], _ => []
  | x :: l', O => f x :: l'
  | x :: l', S n' => x :: update_at n' f l'
  end.

Definition with_voltage (v : float) (c : cell) : cell :=
  {| cell_id := cell_id c; voltage := v; temperature := temperature c |}.

(** [cells[i]["voltage"] = v]: an index out of range raises [IndexError]. *)
Definition set_cell_voltage {G : Type} (cells : list cell) (i : Z) (v : float)
  : Sim.M G (list cell) :=
  match list_position (List.length cells) i with
  | Some n => Sim.ret (update_at n (with_voltage v) cells)
  | None => Sim.raise Sim.IndexError
  end.

Section Generator.

Context {G : Type} (R : Random.source G).

Local Open Scope sim_scope.

(** One iteration of the loop that fills [cells]. *)
Definition mock_cell (base_voltage : float) (i : Z) (cells : list cell)
  : Sim.M G (list cell) :=
  voltage_variation <- Sim.draw (Random.gauss R 0 0.015) ;;
  let voltage := (base_voltage + voltage_variation)%float in
  let voltage := max_of 3.8 (min_of 4.2 voltage) in
  hot <- Sim.draw (Random.random R) ;;
  temperature <-
    (if Py.float_lt hot 0.05 then Sim.draw (Random.uniform R 43 48)
     else Sim.draw (Random.uniform R 25 42)) ;;
  Sim.ret (cells ++ [ {| cell_id := i;
                         voltage := Py.round voltage 3;
                         temperature := Py.round temperature 2 |} ])%list.

(** One iteration of the loop that unbalances a few cells. *)
Definition unbalance_cell (cell_count : Z) (cells : list cell) : Sim.M G (list cell) :=
  cell_idx <- randint R 0 (cell_count - 1) ;;
  low <- Sim.draw (Random.random R) ;;
  if Py.float_lt low 0.5 then
    v <- Sim.draw (Random.uniform R 3.80 3.88) ;;
    set_cell_voltage cells cell_idx (Py.round v 3)
  else
    v <- Sim.draw (Random.uniform R 4.12 4.20) ;;
    set_cell_voltage cells cell_idx (Py.round v 3).

(** [generate_mock_diagnostic_log()]; [utcnow] is what
    [datetime.utcnow().isoformat()] returns at the time of the call. *)
Definition generate_mock_diagnostic_log (utcnow : string) : Sim.M G DiagnosticData.t :=
  serial <- randint R 10000 99999 ;;
  let vehicle_id := ("EV-" ++ str_of_int serial)%string in
  let timestamp := (utcnow ++ "Z")%string in
  cell_count <- randint R 80 120 ;;
  base_voltage <- Sim.draw (Random.uniform R 3.9 4.1) ;;
  cells <- for_each (range cell_count) (mock_cell base_voltage) [] ;;
  unbalance <- Sim.draw (Random.random R) ;;
  cells <-
    (if Py.float_lt unbalance 0.3 then
       imbalance_count <- randint R 1 3 ;;
       for_each (range imbalance_count) (fun _ => unbalance_cell cell_count) cells
     else Sim.ret cells) ;;
  cycle_count <- randint R 100 800 ;;
  let nominal_capacity_kwh := 60.0%float in
  capacity_percentage <-
    (if (cycle_count <? 300)%Z then Sim.draw (Random.uniform R 0.95 1.0)
     else if (cycle_count <? 600)%Z then Sim.draw (Random.uniform R 0.85 0.95)
     else Sim.draw (Random.uniform R 0.80 0.90)) ;;
  let current_capacity_kwh := Py.round (nominal_capacity_kwh * capacity_percentage) 2 in
  Sim.ret {| DiagnosticData.vehicle_id := Some vehicle_id;
             DiagnosticData.timestamp := Some timestamp;
             DiagnosticData.cells := Some cells;
             DiagnosticData.cycle_count := Some cycle_count;
             DiagnosticData.nominal_capacity_kwh := Some nominal_capacity_kwh;
             DiagnosticData.current_capacity_kwh := Some current_capacity_kwh |}.

End Generator.

(** A source that always answers the lower end of the range asked for. *)
Definition lowest : Random.source unit :=
  {| Random.random := fun g => (0%float, g);
     Random.uniform := fun a _ g => (a, g);
     Random.gauss := fun mu _ g => (mu, g);
     Random.randint_draw := fun a _ g => (a, g) |}.

(** ** Auxiliary notions for the generator *)

(** The value of the finite float [m * 2^e] in units of [2^-1074], the
    least positive float. *)
Definition scaled (m : positive) (e : Z) : Z := Zpos m * 2 ^ (e + 1074).

(** The floats [round] can return on a positive float whose decimal
    numerator lies between [n_lo] and [n_hi]. *)
Definition rounded_values (n_lo n_hi : Z) (ndigits : N) : list float :=
  map (fun i => SF2Prim (Py.nearest_float false (n_lo + Z.of_nat i) (10 ^ Z.of_N ndigits)))
      (seq 0 (Z.to_nat (n_hi - n_lo + 1))).

Definition between (lo hi x : float) : bool := (lo <=? x)%float && (x <=? hi)%float.

(** [returns m g P]: run from the state [g], the computation [m] raises
    nothing and returns a value that satisfies [P]. *)
Definition returns {G A : Type} (m : Sim.M G A) (g : G) (P : A -> Prop) : Prop :=
  exists a g', m g = inr (a, g') /\ P a.

(** A cell whose readings lie in the ranges the generator aims at. *)
Definition cell_in_range (c : cell) : Prop :=
  between 3.8 4.2 (voltage c) = true /\ between 25 48 (temperature c) = true.

(** The range the capacity percentage is drawn from, by cycle count. *)
Definition percentage_low (cycles : Z) : float :=
  if (cycles <? 300)%Z then 0.95%float else if (cycles <? 600)%Z then 0.85%float else 0.80%float.

Definition percentage_high (cycles : Z) : float :=
  if (cycles <? 300)%Z then 1.0%float else if (cycles <? 600)%Z then 0.95%float else 0.90%float.

(** What every log of the generator looks like. *)
Definition simulated (utcnow : string) (d : DiagnosticData.t) : Prop :=
  exists (serial : Z) (cs : list cell) (cycles : Z) (pct : float),
    d = {| DiagnosticData.vehicle_id := Some ("EV-" ++ str_of_int serial)%string;
           DiagnosticData.timestamp := Some (utcnow ++ "Z")%string;
           DiagnosticData.cells := Some cs;
           DiagnosticData.cycle_count := Some cycles;
           DiagnosticData.nominal_capacity_kwh := Some 60.0%float;
           DiagnosticData.current_capacity_kwh := Some (Py.round (60.0 * pct)%float 2) |} /\
    (10000 <= serial <= 99999)%Z /\
    (80 <= Z.of_nat (List.length cs) <= 120)%Z /\
    map cell_id cs = range (Z.of_nat (List.length cs)) /\
    Forall cell_in_range cs /\
    (100 <= cycles <= 800)%Z /\
    between (percentage_low cycles) (percentage_high cycles) pct = true.

(** The State of Health the analyzer computes from a current capacity when
    the nominal capacity is 60.0. *)
Definition soh_of_current (current : float) : float :=
  Py.round (current / 60.0 * 100)%float 2.

(** The range the State of Health of a generated log lies in, by cycle count. *)
Definition soh_low (cycles : Z) : float :=
  if (cycles <? 300)%Z then 95%float else if (cycles <? 600)%Z then 85%float else 80%float.

Definition soh_high (cycles : Z) : float :=
  if (cycles <? 300)%Z then 100%float else if (cycles <? 600)%Z then 95%float else 90%float.

(** * Properties *)

(** ** The runtime fragment *)

Lemma float_of_int_0 : Py.float_of_int 0 = Py.Ok 0%float.
Proof. reflexivity. Qed.

Lemma float_of_int_100 : Py.float_of_int 100 = Py.Ok 100%float.
Proof. reflexivity. Qed.

(** [max] and [min] succeed on every non-empty list. *)
Lemma max_nonempty (x : float) (l : list float) :
  Py.max (x :: l) = Py.Ok (fold_left Py.max_step l x).
Proof. reflexivity. Qed.

Lemma min_nonempty (x : float) (l : list float) :
  Py.min (x :: l) = Py.Ok (fold_left Py.min_step l x).
Proof. reflexivity. Qed.

(** The candidate kept by [max] and [min] is always an element of the list. *)
Lemma fold_max_step_In (l : list float) (x : float) :
  In (fold_left Py.max_step l x) (x :: l).
Proof.
  revert x; induction l as [|y l IH]; intros x; simpl.
  - now left.
  - destruct (IH (Py.max_step x y)) as [H|H]; [|now right; right].
    rewrite <- H. unfold Py.max_step.
    destruct (Py.float_gt y x); [right; now left | now left].
Qed.

Lemma fold_min_step_In (l : list float) (x : float) :
  In (fold_left Py.min_step l x) (x :: l).
Proof.
  revert x; induction l as [|y l IH]; intros x; simpl.
  - now left.
  - destruct (IH (Py.min_step x y)) as [H|H]; [|now right; right].
    rewrite <- H. unfold Py.min_step.
    destruct (Py.float_lt y x); [right; now left | now left].
Qed.

(** ** The detectors never raise *)

Lemma detect_voltage_imbalance_total (self : BatteryReport) :
  exists b, detect_voltage_imbalance self = Py.Ok b.
Proof.
  unfold detect_voltage_imbalance.
  destruct (cells self) as [|c cs]; [now exists false|].
  simpl map. rewrite max_nonempty, min_nonempty. simpl. eauto.
Qed.

Lemma detect_anomalies_unfold (self : BatteryReport) (soh : float) (b : bool) :
  detect_voltage_imbalance self = Py.Ok b ->
  detect_anomalies self soh =
    Py.Ok (labels_of b (detect_overheating self) (detect_low_health self soh)).
Proof.
  intros H. unfold detect_anomalies. rewrite H. simpl.
  unfold labels_of, append_if.
  now destruct b, (detect_overheating self), (detect_low_health self soh).
Qed.

Lemma detect_anomalies_total (self : BatteryReport) (soh : float) :
  exists a, detect_anomalies self soh = Py.Ok a.
Proof.
  destruct (detect_voltage_imbalance_total self) as [b Hb].
  rewrite (detect_anomalies_unfold self soh b Hb). eauto.
Qed.

(** ** State of Health of a constructed analyzer *)

Lemma calculate_state_of_health_init (d : DiagnosticData.t) :
  calculate_state_of_health (__init__ d) = Py.Ok (expected_soh d).
Proof.
  unfold calculate_state_of_health, expected_soh, __init__; simpl.
  destruct (DiagnosticData.nominal_capacity_kwh d) as [n|]; simpl; [|reflexivity].
  destruct (n =? 0)%float eqn:Hn; [reflexivity|].
  destruct (DiagnosticData.current_capacity_kwh d) as [c|]; simpl.
  - unfold Py.float_div. rewrite Hn. reflexivity.
  - unfold Py.float_div. rewrite Hn. reflexivity.
Qed.

Lemma generate_report_unfold (self : BatteryReport) (s : float) (a : list string) :
  calculate_state_of_health self = Py.Ok s ->
  detect_anomalies self s = Py.Ok a ->
  generate_report self = Py.Ok (report_of s (cycle_count self) a).
Proof.
  intros Hs Ha. unfold generate_report. rewrite Hs. simpl. rewrite Ha. reflexivity.
Qed.

(** ** Order of the IEEE comparison

    [x <? y] on floats is specified by [SFcompare] on their unfolded form,
    a lexicographic comparison of sign, exponent and mantissa that answers
    nothing when an operand is NaN. *)

Lemma is_nan_Prim2SF (x : float) : is_nan x = sf_is_nan (Prim2SF x).
Proof.
  unfold is_nan. rewrite eqb_spec. unfold SFeqb, SFcompare.
  destruct (Prim2SF x) as [s|s| |s m e]; try destruct s; simpl; try reflexivity.
  - rewrite Z.compare_refl. change (Pos.compare_cont Eq m m) with (Pos.compare m m).
    now rewrite Pos.compare_refl.
  - rewrite Z.compare_refl. change (Pos.compare_cont Eq m m) with (Pos.compare m m).
    now rewrite Pos.compare_refl.
Qed.

Lemma SFcompare_antisym (x y : spec_float) :
  SFcompare y x = option_map CompOpp (SFcompare x y).
Proof.
  destruct x as [sx|sx| |sx mx ex], y as [sy|sy| |sy my ey];
    try destruct sx; try destruct sy; simpl; try reflexivity; split_compare.
Qed.

Lemma SFltb_trans (x y z : spec_float) :
  SFltb x y = true -> SFltb y z = true -> SFltb x z = true.
Proof.
  unfold SFltb.
  destruct x as [sx|sx| |sx mx ex], y as [sy|sy| |sy my ey], z as [sz|sz| |sz mz ez];
    try destruct sx; try destruct sy; try destruct sz; simpl;
    try discriminate; try reflexivity; intros H1 H2; split_compare.
Qed.

(** On floats that are not NaN, "not below" is transitive as well. *)
Lemma SFltb_negative_trans (x y z : spec_float) :
  sf_is_nan x = false -> sf_is_nan y = false -> sf_is_nan z = false ->
  SFltb x y = false -> SFltb y z = false -> SFltb x z = false.
Proof.
  unfold SFltb.
  destruct x as [sx|sx| |sx mx ex], y as [sy|sy| |sy my ey], z as [sz|sz| |sz mz ez];
    try destruct sx; try destruct sy; try destruct sz; simpl;
    try discriminate; try reflexivity; intros _ _ _ H1 H2; split_compare.
Qed.

Lemma SFleb_not_ltb (x y : spec_float) :
  sf_is_nan x = false -> sf_is_nan y = false -> SFleb x y = negb (SFltb y x).
Proof.
  unfold SFleb, SFltb.
  destruct x as [sx|sx| |sx mx ex], y as [sy|sy| |sy my ey];
    try destruct sx; try destruct sy; simpl;
    try discriminate; try reflexivity; intros _ _; split_compare.
Qed.

(** Two floats neither of which is below the other are equal, or are the
    two zeros. *)
Lemma SFltb_incomparable (x y : spec_float) :
  sf_is_nan x = false -> sf_is_nan y = false ->
  SFltb x y = false -> SFltb y x = false ->
  x = y \/ (sf_is_zero x = true /\ sf_is_zero y = true).
Proof.
  unfold SFltb.
  destruct x as [sx|sx| |sx mx ex], y as [sy|sy| |sy my ey];
    try destruct sx; try destruct sy; simpl;
    try discriminate; intros _ _ H1 H2; try discriminate;
    try (now left); try (now right);
    split_compare; left; f_equal; (lia || congruence).
Qed.

(** *** The same facts on primitive floats *)

Lemma ltb_irrefl (x : float) : (x <? x)%float = false.
Proof.
  rewrite ltb_spec. unfold SFltb.
  destruct (Prim2SF x) as [s|s| |s m e]; try destruct s; simpl; try reflexivity;
    rewrite Z.compare_refl; change (Pos.compare_cont Eq m m) with (Pos.compare m m);
    now rewrite Pos.compare_refl.
Qed.

Lemma ltb_trans (x y z : float) :
  (x <? y)%float = true -> (y <? z)%float = true -> (x <? z)%float = true.
Proof. rewrite !ltb_spec. apply SFltb_trans. Qed.

Lemma ltb_negative_trans (x y z : float) :
  is_nan x = false -> is_nan y = false -> is_nan z = false ->
  (x <? y)%float = false -> (y <? z)%float = false -> (x <? z)%float = false.
Proof. rewrite !is_nan_Prim2SF, !ltb_spec. apply SFltb_negative_trans. Qed.

Lemma ltb_asym (x y : float) : (x <? y)%float = true -> (y <? x)%float = false.
Proof.
  intros H. destruct (y <? x)%float eqn:E; [|reflexivity].
  pose proof (ltb_trans _ _ _ H E) as F. now rewrite ltb_irrefl in F.
Qed.

Lemma leb_not_ltb (x y : float) :
  is_nan x = false -> is_nan y = false -> (x <=? y)%float = negb (y <? x)%float.
Proof. rewrite !is_nan_Prim2SF, leb_spec, ltb_spec. apply SFleb_not_ltb. Qed.

(** ** [max] and [min] on lists without NaN *)

Lemma no_nan_In (l : list float) (v : float) : no_nan l -> In v l -> is_nan v = false.
Proof. intros H Hin. unfold no_nan in H. rewrite Forall_forall in H. now apply H. Qed.

Lemma max_step_bounds (b y : float) :
  (Py.max_step b y <? b)%float = false /\ (Py.max_step b y <? y)%float = false.
Proof.
  unfold Py.max_step, Py.float_gt. destruct (b <? y)%float eqn:E.
  - split; [now apply ltb_asym | apply ltb_irrefl].
  - split; [apply ltb_irrefl | assumption].
Qed.

Lemma min_step_bounds (b y : float) :
  (b <? Py.min_step b y)%float = false /\ (y <? Py.min_step b y)%float = false.
Proof.
  unfold Py.min_step, Py.float_lt. destruct (y <? b)%float eqn:E.
  - split; [now apply ltb_asym | apply ltb_irrefl].
  - split; [apply ltb_irrefl | assumption].
Qed.

Lemma max_step_cases (b y : float) : Py.max_step b y = b \/ Py.max_step b y = y.
Proof. unfold Py.max_step. destruct (Py.float_gt y b); auto. Qed.

Lemma min_step_cases (b y : float) : Py.min_step b y = b \/ Py.min_step b y = y.
Proof. unfold Py.min_step. destruct (Py.float_lt y b); auto. Qed.

(** No element of the list is above the candidate [max] keeps. *)
Lemma fold_max_step_upper (l : list float) (b : float) :
  no_nan (b :: l) ->
  forall v, In v (b :: l) -> (fold_left Py.max_step l b <? v)%float = false.
Proof.
  revert b; induction l as [|y l IH]; intros b Hnan v Hin.
  - destruct Hin as [<-|[]]. apply ltb_irrefl.
  - simpl fold_left.
    assert (Hb : is_nan b = false) by (apply (no_nan_In _ _ Hnan); now left).
    assert (Hy : is_nan y = false) by (apply (no_nan_In _ _ Hnan); right; now left).
    assert (Hl : no_nan l) by (inversion Hnan as [|? ? _ H]; now inversion H).
    set (c := Py.max_step b y).
    assert (Hc : is_nan c = false)
      by (destruct (max_step_cases b y) as [E|E]; unfold c; now rewrite E).
    assert (Hcl : no_nan (c :: l)) by now constructor.
    assert (Hr : is_nan (fold_left Py.max_step l c) = false)
      by (apply (no_nan_In _ _ Hcl), fold_max_step_In).
    assert (Htop : (fold_left Py.max_step l c <? c)%float = false)
      by (apply IH; [assumption | now left]).
    destruct (max_step_bounds b y) as [Hcb Hcy]. fold c in Hcb, Hcy.
    destruct Hin as [<-|[<-|Hin]].
    + now apply (ltb_negative_trans _ c).
    + now apply (ltb_negative_trans _ c).
    + apply IH; [assumption | now right].
Qed.

(** No element of the list is below the candidate [min] keeps. *)
Lemma fold_min_step_lower (l : list float) (b : float) :
  no_nan (b :: l) ->
  forall v, In v (b :: l) -> (v <? fold_left Py.min_step l b)%float = false.
Proof.
  revert b; induction l as [|y l IH]; intros b Hnan v Hin.
  - destruct Hin as [<-|[]]. apply ltb_irrefl.
  - simpl fold_left.
    assert (Hb : is_nan b = false) by (apply (no_nan_In _ _ Hnan); now left).
    assert (Hy : is_nan y = false) by (apply (no_nan_In _ _ Hnan); right; now left).
    assert (Hl : no_nan l) by (inversion Hnan as [|? ? _ H]; now inversion H).
    set (c := Py.min_step b y).
    assert (Hc : is_nan c = false)
      by (destruct (min_step_cases b y) as [E|E]; unfold c; now rewrite E).
    assert (Hcl : no_nan (c :: l)) by now constructor.
    assert (Hr : is_nan (fold_left Py.min_step l c) = false)
      by (apply (no_nan_In _ _ Hcl), fold_min_step_In).
    assert (Hbot : (c <? fold_left Py.min_step l c)%float = false)
      by (apply IH; [assumption | now left]).
    destruct (min_step_bounds b y) as [Hcb Hcy]. fold c in Hcb, Hcy.
    destruct Hin as [<-|[<-|Hin]].
    + now apply (ltb_negative_trans _ c).
    + now apply (ltb_negative_trans _ c).
    + apply IH; [assumption | now right].
Qed.

(** ** The verdict on the spread does not see which zero is which *)

Lemma SFsub_equiv (a a' b b' : spec_float) :
  sf_equiv a a' -> sf_equiv b b' -> sf_equiv (SF64sub a b) (SF64sub a' b').
Proof.
  unfold sf_equiv, SF64sub.
  intros [<-|[Ha Ha']] [<-|[Hb Hb']].
  - now left.
  - destruct b as [sb| | |]; try discriminate. destruct b' as [sb'| | |]; try discriminate.
    destruct a as [sa|sa| |sa ma ea]; simpl; try (now left).
    destruct sa, sb, sb'; simpl; (now left) || (now right).
  - destruct a as [sa| | |]; try discriminate. destruct a' as [sa'| | |]; try discriminate.
    destruct b as [sb|sb| |sb mb eb]; simpl; try (now left).
    destruct sa, sa', sb; simpl; (now left) || (now right).
  - destruct a as [sa| | |]; try discriminate. destruct a' as [sa'| | |]; try discriminate.
    destruct b as [sb| | |]; try discriminate. destruct b' as [sb'| | |]; try discriminate.
    destruct sa, sa', sb, sb'; simpl; (now left) || (now right).
Qed.

Lemma SFltb_equiv_r (t x x' : spec_float) :
  sf_equiv x x' -> SFltb t x = SFltb t x'.
Proof.
  intros [<-|[Hx Hx']]; [reflexivity|].
  destruct x as [s| | |]; try discriminate. destruct x' as [s'| | |]; try discriminate.
  unfold SFltb. now destruct t as [st|st| |st mt et].
Qed.

Lemma spread_verdict_equiv (hi hi' lo lo' t : float) :
  is_nan hi = false -> is_nan hi' = false -> is_nan lo = false -> is_nan lo' = false ->
  (hi <? hi')%float = false -> (hi' <? hi)%float = false ->
  (lo <? lo')%float = false -> (lo' <? lo)%float = false ->
  Py.float_gt (hi - lo)%float t = Py.float_gt (hi' - lo')%float t.
Proof.
  rewrite !is_nan_Prim2SF. unfold Py.float_gt. rewrite !ltb_spec, !sub_spec.
  intros Nh Nh' Nl Nl' H1 H2 L1 L2.
  apply SFltb_equiv_r, SFsub_equiv; now apply SFltb_incomparable.
Qed.

(** ** The loop of [detect_overheating] *)

Lemma overheating_loop_existsb (cs : list cell) :
  overheating_loop cs = existsb (fun c => Py.float_gt (temperature c) OVERHEATING_THRESHOLD) cs.
Proof.
  induction cs as [|c cs IH]; simpl; [reflexivity|].
  rewrite IH. now destruct (Py.float_gt (temperature c) OVERHEATING_THRESHOLD).
Qed.

Lemma detect_overheating_existsb (self : BatteryReport) :
  detect_overheating self =
    existsb (fun c => Py.float_gt (temperature c) OVERHEATING_THRESHOLD) (cells self).
Proof.
  unfold detect_overheating.
  destruct (cells self) as [|c cs]; [reflexivity|].
  apply overheating_loop_existsb.
Qed.

(** ** Permuting the cells *)

Section Permuted.

Variables self self' : BatteryReport.
Hypothesis Hperm : Permutation (cells self) (cells self').

Lemma detect_overheating_perm : detect_overheating self = detect_overheating self'.
Proof.
  rewrite !detect_overheating_existsb.
  apply eq_true_iff_eq. rewrite !existsb_exists.
  split; intros [c [Hin Hc]]; exists c; split; trivial.
  - now apply (Permutation_in _ Hperm).
  - now apply (Permutation_in _ (Permutation_sym Hperm)).
Qed.

Hypothesis Hord : no_nan_voltage (cells self).

Lemma detect_voltage_imbalance_perm :
  detect_voltage_imbalance self = detect_voltage_imbalance self'.
Proof.
  unfold detect_voltage_imbalance.
  assert (Hv : Permutation (map voltage (cells self)) (map voltage (cells self')))
    by now apply Permutation_map.
  assert (Hn : no_nan (map voltage (cells self)))
    by (unfold no_nan; rewrite Forall_map; exact Hord).
  assert (Hn' : no_nan (map voltage (cells self')))
    by (unfold no_nan; eapply Permutation_Forall; eassumption).
  clear Hperm Hord.
  destruct (cells self) as [|c cs], (cells self') as [|c' cs'].
  - reflexivity.
  - now apply Permutation_nil_cons in Hv.
  - symmetry in Hv. now apply Permutation_nil_cons in Hv.
  - simpl map in *. rewrite !max_nonempty, !min_nonempty. simpl Py.bind. f_equal.
    set (l := map voltage cs) in *. set (l' := map voltage cs') in *.
    set (x := voltage c) in *. set (x' := voltage c') in *.
    pose proof (fold_max_step_In l x) as Ih. pose proof (fold_max_step_In l' x') as Ih'.
    pose proof (fold_min_step_In l x) as Il. pose proof (fold_min_step_In l' x') as Il'.
    assert (Hv' : Permutation (x' :: l') (x :: l)) by now symmetry.
    apply spread_verdict_equiv;
      try (apply (no_nan_In _ _ Hn); assumption);
      try (apply (no_nan_In _ _ Hn'); assumption).
    + apply fold_max_step_upper; [assumption | now apply (Permutation_in _ Hv')].
    + apply fold_max_step_upper; [assumption | now apply (Permutation_in _ Hv)].
    + apply fold_min_step_lower; [assumption | now apply (Permutation_in _ Hv)].
    + apply fold_min_step_lower; [assumption | now apply (Permutation_in _ Hv')].
Qed.

End Permuted.

(** ** What the methods read *)

Lemma detect_voltage_imbalance_cells (self self' : BatteryReport) :
  cells self = cells self' -> detect_voltage_imbalance self = detect_voltage_imbalance self'.
Proof. intros H. unfold detect_voltage_imbalance. now rewrite H. Qed.

Lemma detect_overheating_cells (self self' : BatteryReport) :
  cells self = cells self' -> detect_overheating self = detect_overheating self'.
Proof. intros H. unfold detect_overheating. now rewrite H. Qed.

Lemma detect_anomalies_ext (self self' : BatteryReport) (soh : float) :
  detect_voltage_imbalance self = detect_voltage_imbalance self' ->
  detect_overheating self = detect_overheating self' ->
  detect_anomalies self soh = detect_anomalies self' soh.
Proof. intros Hv Ho. unfold detect_anomalies, detect_low_health. now rewrite Hv, Ho. Qed.

Lemma generate_report_ext (self self' : BatteryReport) :
  calculate_state_of_health self = calculate_state_of_health self' ->
  (forall soh, detect_anomalies self soh = detect_anomalies self' soh) ->
  cycle_count self = cycle_count self' ->
  generate_report self = generate_report self'.
Proof.
  intros Hs Ha Hc. unfold generate_report. rewrite Hs, Hc.
  destruct (calculate_state_of_health self') as [s|e]; simpl; [|reflexivity].
  now rewrite Ha.
Qed.

Lemma generate_report_init (d : DiagnosticData.t) :
  exists a,
    detect_anomalies (__init__ d) (expected_soh d) = Py.Ok a /\
    generate_report (__init__ d) =
      Py.Ok (report_of (expected_soh d)
                       (DiagnosticData.get (DiagnosticData.cycle_count d) id 0) a).
Proof.
  destruct (detect_anomalies_total (__init__ d) (expected_soh d)) as [a Ha].
  exists a. split; [assumption|].
  apply (generate_report_unfold (__init__ d)); [apply calculate_state_of_health_init | assumption].
Qed.

(** ** Rounding to the nearest decimal *)

(** [round_half_even p q] is within half a unit of [p / q]. *)
Lemma round_half_even_nearest (p q : Z) :
  0 < q -> Z.abs (2 * (Py.round_half_even p q * q - p)) <= q.
Proof.
  intros Hq. unfold Py.round_half_even.
  pose proof (Z.div_mod p q ltac:(lia)) as Hdiv.
  pose proof (Z.mod_pos_bound p q Hq) as Hmod.
  destruct (Z.compare_spec (2 * (p mod q)) q); [destruct (Z.even (p / q))| |]; nia.
Qed.

(** On an exact tie the even neighbour is chosen. *)
Lemma round_half_even_tie (p q : Z) :
  0 < q -> 2 * (p mod q) = q -> Z.even (Py.round_half_even p q) = true.
Proof.
  intros Hq Htie. unfold Py.round_half_even. rewrite Htie, Z.compare_refl.
  destruct (Z.even (p / q)) eqn:E; [assumption|].
  rewrite Z.even_add, E. reflexivity.
Qed.

(** The decimal kept by [round x 2] for [x = m * 2^e] is within half a
    hundredth of [x]: with [n] its numerator, [|n / 100 - x| <= 1 / 200]. *)
Lemma decimal_numerator_nearest (m : positive) (e : Z) :
  e < 0 ->
  Z.abs (2 * (Py.decimal_numerator m e 2 * 2 ^ (- e) - Zpos m * 100)) <= 2 ^ (- e).
Proof.
  intros He. unfold Py.decimal_numerator.
  destruct (0 <=? e)%Z eqn:E; [apply Z.leb_le in E; lia|].
  change (10 ^ Z.of_N 2) with 100.
  apply round_half_even_nearest. apply Z.pow_pos_nonneg; lia.
Qed.

(** ** The statements of the specification *)

(** C1: for every diagnostic snapshot, [generate_report] returns a dictionary
    with exactly the keys [battery_soh], [cycle_count] and [anomalies], in
    which [battery_soh] is the value [s] returned by
    [calculate_state_of_health], [cycle_count] is the snapshot's cycle count
    and [anomalies] is [detect_anomalies s] for that same [s]. *)
Theorem generate_report_components (d : DiagnosticData.t) :
  let self := __init__ d in
  exists s a r,
    calculate_state_of_health self = Py.Ok s /\
    detect_anomalies self s = Py.Ok a /\
    generate_report self = Py.Ok r /\
    r = [ ("battery_soh", VFloat s);
          ("cycle_count", VInt (DiagnosticData.get (DiagnosticData.cycle_count d) id 0));
          ("anomalies", VList a) ] /\
    keys r = ["battery_soh"; "cycle_count"; "anomalies"].
Proof.
  intros self.
  destruct (detect_anomalies_total self (expected_soh d)) as [a Ha].
  pose proof (calculate_state_of_health_init d) as Hs. fold self in Hs.
  pose proof (generate_report_unfold self _ _ Hs Ha) as Hr.
  exists (expected_soh d), a, (report_of (expected_soh d) (cycle_count self) a).
  repeat split; assumption.
Qed.

(** C2: [calculate_state_of_health] returns [0.0] when the nominal capacity
    equals zero, whatever the current capacity, and otherwise the quotient
    of the capacities times 100 rounded to two decimals; it never raises,
    and it does not clamp: a ratio above 1 gives a value above 100 and a
    negative ratio a negative value. *)
Theorem calculate_state_of_health_formula (d : DiagnosticData.t) :
  let current := capacity (DiagnosticData.current_capacity_kwh d) in
  let nominal := capacity (DiagnosticData.nominal_capacity_kwh d) in
  calculate_state_of_health (__init__ d) =
    Py.Ok (if (nominal =? 0)%float then 0%float
           else Py.round (current / nominal * 100)%float 2)
  /\ calculate_state_of_health (__init__ (snapshot base_cells 300 60.0 120.0)) = Py.Ok 200%float
  /\ calculate_state_of_health (__init__ (snapshot base_cells 300 60.0 (-6.0))) = Py.Ok (-10)%float.
Proof.
  intros current nominal. split; [apply calculate_state_of_health_init|].
  split; reflexivity.
Qed.

(** C3: [detect_anomalies] consults the voltage-imbalance, overheating and
    low-health detectors in that order, and returns the label of each one
    that holds, in that order: all of them when all hold, none when none
    holds. *)
Theorem detect_anomalies_labels (self : BatteryReport) (soh : float) :
  exists imbalance,
    detect_voltage_imbalance self = Py.Ok imbalance /\
    detect_anomalies self soh =
      Py.Ok ((if imbalance then ["Voltage imbalance detected"] else [])
             ++ (if detect_overheating self then ["Overheating detected"] else [])
             ++ (if detect_low_health self soh then ["Low State of Health"] else []))%list.
Proof.
  destruct (detect_voltage_imbalance_total self) as [b Hb].
  exists b. split; [assumption|]. now apply detect_anomalies_unfold.
Qed.

(** C4: [detect_voltage_imbalance] is false on an empty cell list; otherwise
    it is true exactly when the largest voltage minus the smallest one is
    strictly above 0.05, so that a spread equal to 0.05 is no imbalance. *)
Theorem detect_voltage_imbalance_spread (self : BatteryReport) :
  let voltages := map voltage (cells self) in
  match cells self with
  | [] => detect_voltage_imbalance self = Py.Ok false
  | _ :: _ =>
      exists hi lo,
        Py.max voltages = Py.Ok hi /\ Py.min voltages = Py.Ok lo /\
        In hi voltages /\ In lo voltages /\
        (no_nan_voltage (cells self) ->
         forall v, In v voltages -> (lo <=? v)%float = true /\ (v <=? hi)%float = true) /\
        detect_voltage_imbalance self = Py.Ok (0.05 <? hi - lo)%float /\
        ((hi - lo)%float = 0.05%float -> detect_voltage_imbalance self = Py.Ok false)
  end.
Proof.
  intros voltages. unfold detect_voltage_imbalance. subst voltages.
  destruct (cells self) as [|c cs]; [reflexivity|].
  simpl map. set (x := voltage c). set (l := map voltage cs).
  exists (fold_left Py.max_step l x), (fold_left Py.min_step l x).
  rewrite max_nonempty, min_nonempty.
  repeat split; try reflexivity.
  - apply fold_max_step_In.
  - apply fold_min_step_In.
  - assert (Hn : no_nan (x :: l))
      by (change (x :: l) with (map voltage (c :: cs)); unfold no_nan;
          rewrite Forall_map; assumption).
    rewrite leb_not_ltb.
    + now rewrite (fold_min_step_lower l x Hn v).
    + apply (no_nan_In _ _ Hn), fold_min_step_In.
    + now apply (no_nan_In _ _ Hn).
  - assert (Hn : no_nan (x :: l))
      by (change (x :: l) with (map voltage (c :: cs)); unfold no_nan;
          rewrite Forall_map; assumption).
    rewrite leb_not_ltb.
    + now rewrite (fold_max_step_upper l x Hn v).
    + now apply (no_nan_In _ _ Hn).
    + apply (no_nan_In _ _ Hn), fold_max_step_In.
  - intros Heq. simpl. unfold Py.float_gt, VOLTAGE_IMBALANCE_THRESHOLD.
    rewrite Heq. reflexivity.
Qed.

(** An instance of C4 at the threshold: a spread of exactly 0.05 volts. *)
Lemma detect_voltage_imbalance_spread_witness :
  detect_voltage_imbalance
    (__init__ (snapshot [reading 0 0.0 30.0; reading 1 0.05 31.0]%float 300 60.0 54.0)) =
  Py.Ok false.
Proof.
  pose proof (detect_voltage_imbalance_spread
    (__init__ (snapshot [reading 0 0.0 30.0; reading 1 0.05 31.0]%float 300 60.0 54.0))) as H.
  simpl in H. destruct H as [hi [lo [Hmax [Hmin [_ [_ [_ [_ Hexact]]]]]]]].
  injection Hmax as <-. injection Hmin as <-.
  apply Hexact. reflexivity.
Defined.

(** C5: [detect_overheating] is false on an empty cell list, and is true
    exactly when some cell is strictly above 45.0 degrees; cells at exactly
    45.0 do not count. *)
Theorem detect_overheating_some_cell (self : BatteryReport) :
  (cells self = [] -> detect_overheating self = false) /\
  (detect_overheating self = true <->
   exists c, In c (cells self) /\ (45.0 <? temperature c)%float = true) /\
  ((forall c, In c (cells self) -> temperature c = 45.0%float) ->
   detect_overheating self = false).
Proof.
  repeat split.
  - intros H. unfold detect_overheating. now rewrite H.
  - rewrite detect_overheating_existsb, existsb_exists. trivial.
  - rewrite detect_overheating_existsb, existsb_exists. trivial.
  - intros H. rewrite detect_overheating_existsb.
    destruct (existsb _ _) eqn:E; [|reflexivity].
    apply existsb_exists in E. destruct E as [c [Hin Hc]].
    rewrite (H c Hin) in Hc. discriminate Hc.
Qed.

(** An instance of C5 at the threshold: a cell at exactly 45.0 degrees. *)
Lemma detect_overheating_some_cell_witness :
  detect_overheating (__init__ (snapshot [reading 0 4.0 45.0]%float 300 60.0 54.0)) = false.
Proof.
  apply (proj2 (proj2 (detect_overheating_some_cell
    (__init__ (snapshot [reading 0 4.0 45.0]%float 300 60.0 54.0))))).
  intros c [<-|[]]. reflexivity.
Defined.

(** C6: [detect_low_health soh] is true exactly when [soh < 80.0], so that
    80.0 itself is not low; the analyzer it is called on plays no part. *)
Theorem detect_low_health_threshold (self : BatteryReport) (soh : float) :
  detect_low_health self soh = (soh <? 80.0)%float /\
  detect_low_health self 80.0 = false /\
  detect_low_health self 79.9999 = true /\
  (forall self' : BatteryReport, detect_low_health self' soh = detect_low_health self soh).
Proof. repeat split. Qed.

(** C7 as stated fails: Python's [max] and [min] keep their first candidate
    against an incomparable NaN, so that moving a NaN voltage from the front
    of the cell list to its end changes the verdict on the imbalance, and
    with it the report. *)
Lemma cell_order_matters_with_nan :
  Permutation nan_first nan_last /\
  detect_voltage_imbalance (__init__ (snapshot nan_first 300 60.0 54.0)) = Py.Ok false /\
  detect_voltage_imbalance (__init__ (snapshot nan_last 300 60.0 54.0)) = Py.Ok true /\
  generate_report (__init__ (snapshot nan_first 300 60.0 54.0)) =
    Py.Ok (report_of 90 300 []) /\
  generate_report (__init__ (snapshot nan_last 300 60.0 54.0)) =
    Py.Ok (report_of 90 300 ["Voltage imbalance detected"]) /\
  detect_voltage_imbalance (__init__ (snapshot nan_first 300 60.0 54.0)) <>
    detect_voltage_imbalance (__init__ (snapshot nan_last 300 60.0 54.0)) /\
  generate_report (__init__ (snapshot nan_first 300 60.0 54.0)) <>
    generate_report (__init__ (snapshot nan_last 300 60.0 54.0)).
Proof.
  split; [|repeat split; discriminate].
  apply (Permutation_cons_append [reading 1 1.0 30.0; reading 2 2.0 30.0]%float
                                 (reading 0 nan 30.0%float)).
Qed.

(** C7, amended: permuting the cell list of a snapshot changes neither
    [detect_overheating] nor [calculate_state_of_health]; when no cell
    voltage is NaN it changes neither [detect_voltage_imbalance] nor
    [generate_report]. *)
Theorem cell_order_irrelevant
  (d : DiagnosticData.t) (cs cs' : list cell) :
  Permutation cs cs' ->
  let self := __init__ (set_cells (Some cs) d) in
  let self' := __init__ (set_cells (Some cs') d) in
  detect_overheating self = detect_overheating self' /\
  calculate_state_of_health self = calculate_state_of_health self' /\
  (no_nan_voltage cs ->
   detect_voltage_imbalance self = detect_voltage_imbalance self' /\
   generate_report self = generate_report self').
Proof.
  intros Hperm self self'.
  assert (Ho : detect_overheating self = detect_overheating self')
    by now apply detect_overheating_perm.
  assert (Hs : calculate_state_of_health self = calculate_state_of_health self')
    by reflexivity.
  repeat split; trivial.
  - now apply detect_voltage_imbalance_perm.
  - apply generate_report_ext; trivial.
    intros soh. apply detect_anomalies_ext; trivial.
    now apply detect_voltage_imbalance_perm.
Qed.

Lemma cell_order_irrelevant_witness :
  generate_report (__init__ (set_cells (Some base_cells) base_data)) =
  generate_report (__init__ (set_cells (Some (rev base_cells)) base_data)).
Proof.
  apply (cell_order_irrelevant base_data base_cells (rev base_cells)).
  - apply Permutation_rev.
  - repeat constructor.
Defined.

(** C8: the vehicle identifier and the timestamp do not reach the report,
    and the cycle count reaches only the [cycle_count] entry, unchanged. *)
Theorem generate_report_noninterference
  (d : DiagnosticData.t) (v t : option string) (n : option Z) :
  generate_report (__init__ (set_timestamp t (set_vehicle_id v d))) =
    generate_report (__init__ d) /\
  exists s a,
    generate_report (__init__ d) =
      Py.Ok (report_of s (DiagnosticData.get (DiagnosticData.cycle_count d) id 0) a) /\
    generate_report (__init__ (set_cycle_count n d)) =
      Py.Ok (report_of s (DiagnosticData.get n id 0) a).
Proof.
  split.
  - apply generate_report_ext; try reflexivity.
  - destruct (generate_report_init d) as [a [Ha Hr]].
    exists (expected_soh d), a. split; [assumption|].
    destruct (generate_report_init (set_cycle_count n d)) as [a' [Ha' Hr']].
    rewrite Hr'.
    assert (E : a' = a).
    { change (expected_soh (set_cycle_count n d)) with (expected_soh d) in Ha'.
      rewrite (detect_anomalies_ext _ (__init__ d)) in Ha' by reflexivity.
      rewrite Ha in Ha'. now injection Ha'. }
    now rewrite E.
Qed.

(** C9: a dictionary that lacks [cells], [cycle_count],
    [nominal_capacity_kwh] or [current_capacity_kwh] is analyzed without an
    exception and exactly as the dictionary in which the missing entries are
    the empty list and zero; with all four missing the report is SoH 0.0,
    cycle count 0 and the single anomaly "Low State of Health". *)
Theorem missing_fields_default (d : DiagnosticData.t) :
  let self := __init__ d in
  let filled := __init__ (with_defaults d) in
  cells self = cells filled /\
  cycle_count self = cycle_count filled /\
  calculate_state_of_health self = calculate_state_of_health filled /\
  detect_voltage_imbalance self = detect_voltage_imbalance filled /\
  detect_overheating self = detect_overheating filled /\
  (forall soh, detect_anomalies self soh = detect_anomalies filled soh) /\
  generate_report self = generate_report filled /\
  (exists r, generate_report self = Py.Ok r) /\
  (forall v t, generate_report (__init__ (bare_snapshot v t)) =
               Py.Ok [ ("battery_soh", VFloat 0); ("cycle_count", VInt 0);
                       ("anomalies", VList ["Low State of Health"]) ]).
Proof.
  intros self filled.
  assert (Hc : cells self = cells filled) by reflexivity.
  assert (Hn : cycle_count self = cycle_count filled) by reflexivity.
  assert (Hs : calculate_state_of_health self = calculate_state_of_health filled).
  { unfold self, filled. rewrite !calculate_state_of_health_init. reflexivity. }
  assert (Hv : detect_voltage_imbalance self = detect_voltage_imbalance filled)
    by now apply detect_voltage_imbalance_cells.
  assert (Ho : detect_overheating self = detect_overheating filled)
    by now apply detect_overheating_cells.
  assert (Ha : forall soh, detect_anomalies self soh = detect_anomalies filled soh)
    by (intros soh; now apply detect_anomalies_ext).
  repeat split; trivial.
  - now apply generate_report_ext.
  - destruct (generate_report_init d) as [a [_ Hr]]. eauto.
Qed.

(** C10: the list returned by [detect_anomalies], and so the [anomalies]
    entry of every report, is a subsequence of the three labels in their
    fixed order: at most three elements, no duplicate, nothing else. *)
Theorem anomalies_subsequence :
  (forall (self : BatteryReport) (soh : float),
     exists a, detect_anomalies self soh = Py.Ok a /\
               subsequence a anomaly_labels /\ (List.length a <= 3)%nat /\ NoDup a /\
               (forall x, In x a -> In x anomaly_labels)) /\
  (forall d : DiagnosticData.t,
     exists r a, generate_report (__init__ d) = Py.Ok r /\
                 lookup "anomalies" r = Some (VList a) /\
                 subsequence a anomaly_labels /\ (List.length a <= 3)%nat /\ NoDup a /\
                 (forall x, In x a -> In x anomaly_labels)).
Proof.
  assert (Hlab : forall b1 b2 b3,
    subsequence (labels_of b1 b2 b3) anomaly_labels /\
    (List.length (labels_of b1 b2 b3) <= 3)%nat /\ NoDup (labels_of b1 b2 b3) /\
    (forall x, In x (labels_of b1 b2 b3) -> In x anomaly_labels)).
  { intros b1 b2 b3. unfold anomaly_labels.
    destruct b1, b2, b3; simpl; repeat split;
      try (repeat constructor; fail); try lia;
      try (intros x Hx; simpl in Hx; intuition; fail);
      repeat (constructor; [simpl; intuition discriminate|]); constructor. }
  split.
  - intros self soh. destruct (detect_voltage_imbalance_total self) as [b Hb].
    exists (labels_of b (detect_overheating self) (detect_low_health self soh)).
    split; [now apply detect_anomalies_unfold | apply Hlab].
  - intros d. destruct (generate_report_init d) as [a [Ha Hr]].
    destruct (detect_voltage_imbalance_total (__init__ d)) as [b Hb].
    rewrite (detect_anomalies_unfold _ _ b Hb) in Ha. injection Ha as <-.
    eexists. eexists. split; [exact Hr|]. split; [reflexivity | apply Hlab].
Qed.

(** ** The unit tests of the repository, replayed on the embedding *)

Example test_calculate_state_of_health_normal :
  calculate_state_of_health (__init__ base_data) = Py.Ok 90%float.
Proof. reflexivity. Qed.

Example test_calculate_state_of_health_perfect :
  calculate_state_of_health (__init__ (snapshot base_cells 300 60.0 60.0)) = Py.Ok 100%float.
Proof. reflexivity. Qed.

Example test_calculate_state_of_health_degraded :
  calculate_state_of_health (__init__ (snapshot base_cells 300 60.0 45.0)) = Py.Ok 75%float.
Proof. reflexivity. Qed.

Example test_calculate_state_of_health_zero_nominal :
  calculate_state_of_health (__init__ (snapshot base_cells 300 0.0 54.0)) = Py.Ok 0%float.
Proof. reflexivity. Qed.

Example test_detect_voltage_imbalance_none :
  detect_voltage_imbalance (__init__ base_data) = Py.Ok false.
Proof. reflexivity. Qed.

Example test_detect_voltage_imbalance_minor :
  detect_voltage_imbalance
    (__init__ (snapshot [reading 0 4.00 30.0; reading 1 4.02 31.0; reading 2 4.03 32.0]%float
                        300 60.0 54.0)) = Py.Ok false.
Proof. reflexivity. Qed.

Example test_detect_voltage_imbalance_detected :
  detect_voltage_imbalance
    (__init__ (snapshot [reading 0 3.90 30.0; reading 1 4.00 31.0; reading 2 4.10 32.0]%float
                        300 60.0 54.0)) = Py.Ok true.
Proof. reflexivity. Qed.

Example test_detect_voltage_imbalance_exact_threshold :
  detect_voltage_imbalance
    (__init__ (snapshot [reading 0 4.00 30.0; reading 1 4.05 31.0]%float 300 60.0 54.0)) =
  Py.Ok false.
Proof. reflexivity. Qed.

Example test_detect_voltage_imbalance_just_above_threshold :
  detect_voltage_imbalance
    (__init__ (snapshot [reading 0 4.00 30.0; reading 1 4.06 31.0]%float 300 60.0 54.0)) =
  Py.Ok true.
Proof. reflexivity. Qed.

Example test_detect_overheating_none :
  detect_overheating (__init__ base_data) = false.
Proof. reflexivity. Qed.

Example test_detect_overheating_detected :
  detect_overheating
    (__init__ (snapshot [reading 0 4.0 30.0; reading 1 4.0 48.0; reading 2 4.0 32.0]%float
                        300 60.0 54.0)) = true.
Proof. reflexivity. Qed.

Example test_detect_overheating_exact_threshold :
  detect_overheating (__init__ (snapshot [reading 0 4.0 45.0]%float 300 60.0 54.0)) = false.
Proof. reflexivity. Qed.

Example test_detect_overheating_just_above_threshold :
  detect_overheating (__init__ (snapshot [reading 0 4.0 45.1]%float 300 60.0 54.0)) = true.
Proof. reflexivity. Qed.

Example test_detect_low_health_normal :
  let report := __init__ base_data in
  (soh <- calculate_state_of_health report ;; Py.Ok (detect_low_health report soh)) =
  Py.Ok false.
Proof. reflexivity. Qed.

Example test_detect_low_health_detected :
  let report := __init__ (snapshot base_cells 300 60.0 45.0) in
  (soh <- calculate_state_of_health report ;; Py.Ok (detect_low_health report soh)) =
  Py.Ok true.
Proof. reflexivity. Qed.

Example test_detect_low_health_exact_threshold :
  let report := __init__ (snapshot base_cells 300 60.0 48.0) in
  calculate_state_of_health report = Py.Ok 80%float /\
  (soh <- calculate_state_of_health report ;; Py.Ok (detect_low_health report soh)) =
  Py.Ok false.
Proof. split; reflexivity. Qed.

Example test_detect_anomalies_none :
  let report := __init__ base_data in
  (soh <- calculate_state_of_health report ;; detect_anomalies report soh) = Py.Ok [].
Proof. reflexivity. Qed.

Example test_detect_anomalies_multiple :
  let report :=
    __init__ (snapshot [reading 0 3.80 48.0; reading 1 4.20 32.0]%float 300 60.0 45.0) in
  (soh <- calculate_state_of_health report ;; detect_anomalies report soh) =
  Py.Ok ["Voltage imbalance detected"; "Overheating detected"; "Low State of Health"].
Proof. reflexivity. Qed.

Example test_generate_report_healthy :
  generate_report (__init__ base_data) =
  Py.Ok [("battery_soh", VFloat 90); ("cycle_count", VInt 300); ("anomalies", VList [])].
Proof. reflexivity. Qed.

Example test_generate_report_with_anomalies :
  generate_report
    (__init__ (snapshot [reading 0 3.80 30.0; reading 1 4.15 32.0]%float 300 60.0 54.0)) =
  Py.Ok [("battery_soh", VFloat 90); ("cycle_count", VInt 300);
         ("anomalies", VList ["Voltage imbalance detected"])].
Proof. reflexivity. Qed.

Example test_empty_cells :
  let report := __init__ (snapshot [] 300 60.0 54.0) in
  detect_voltage_imbalance report = Py.Ok false /\ detect_overheating report = false /\
  generate_report report = Py.Ok (report_of 90 300 []).
Proof. repeat split. Qed.

(** [round] on documented inputs: the binary value of [2.675] lies below the
    tie, and exact ties go to the even hundredth. *)
Example round_examples :
  Py.round 2.675 2 = 2.67%float /\ Py.round 0.125 2 = 0.12%float /\
  Py.round 0.375 2 = 0.38%float /\ Py.round (-0.001) 2 = (-0)%float /\
  Py.round infinity 2 = infinity /\ Py.round 1e300 2 = 1e300%float.
Proof. repeat split. Qed.

(** * Further properties of the analyzer *)

Local Open Scope list_scope.
Local Open Scope Z_scope.

(** ** NaN in comparisons and arithmetic *)

Lemma Prim2SF_nan_inv (x : float) : Prim2SF x = S754_nan -> x = nan.
Proof. intros H. rewrite <- (SF2Prim_Prim2SF x), H. reflexivity. Qed.

Lemma is_nan_inv (x : float) : is_nan x = true -> x = nan.
Proof.
  rewrite is_nan_Prim2SF. intros H. apply Prim2SF_nan_inv.
  destruct (Prim2SF x); try discriminate; reflexivity.
Qed.

Lemma ltb_nan_l (x : float) : (nan <? x)%float = false.
Proof. rewrite ltb_spec. reflexivity. Qed.

Lemma ltb_nan_r (x : float) : (x <? nan)%float = false.
Proof.
  rewrite ltb_spec. unfold SFltb, SFcompare.
  change (Prim2SF nan) with S754_nan. now destruct (Prim2SF x).
Qed.

Lemma div_nan_r (x : float) : (x / nan)%float = nan.
Proof.
  apply Prim2SF_nan_inv. rewrite div_spec. change (Prim2SF nan) with S754_nan.
  unfold SF64div, SFdiv. now destruct (Prim2SF x).
Qed.

Lemma div_nan_l (x : float) : (nan / x)%float = nan.
Proof. apply Prim2SF_nan_inv. rewrite div_spec. reflexivity. Qed.

Lemma mul_nan_l (x : float) : (nan * x)%float = nan.
Proof. apply Prim2SF_nan_inv. rewrite mul_spec. reflexivity. Qed.

Lemma eqb_nan_l (x : float) : (nan =? x)%float = false.
Proof. rewrite eqb_spec. reflexivity. Qed.

(** [x - x] is a zero or NaN, so that it never exceeds a positive bound. *)
Lemma sub_diag_not_above (x t : float) :
  (0 <? t)%float = true -> (t <? x - x)%float = false.
Proof.
  intros Ht. rewrite ltb_spec in Ht |- *. rewrite sub_spec.
  assert (E : SF64sub (Prim2SF x) (Prim2SF x) = S754_nan \/
              exists s, SF64sub (Prim2SF x) (Prim2SF x) = S754_zero s).
  { unfold SF64sub, SFsub. destruct (Prim2SF x) as [s|s| |s m e].
    - right. destruct s; eauto.
    - left. now destruct s.
    - now left.
    - right. rewrite Z.sub_diag. simpl. eauto. }
  destruct E as [-> | [s ->]].
  - unfold SFltb, SFcompare. now destruct (Prim2SF t).
  - change (Prim2SF 0) with (S754_zero false) in Ht.
    unfold SFltb, SFcompare in *.
    destruct (Prim2SF t) as [st|st| |st mt et]; try discriminate; try reflexivity;
      destruct st; try discriminate; reflexivity.
Qed.

(** ** Readings that all agree, and a NaN reading in front *)

Lemma fold_max_step_const (l : list float) (v : float) :
  Forall (fun x => x = v) l -> fold_left Py.max_step l v = v.
Proof.
  induction 1 as [|x l -> _ IH]; simpl; [reflexivity|].
  unfold Py.max_step at 2. unfold Py.float_gt. now rewrite ltb_irrefl.
Qed.

Lemma fold_min_step_const (l : list float) (v : float) :
  Forall (fun x => x = v) l -> fold_left Py.min_step l v = v.
Proof.
  induction 1 as [|x l -> _ IH]; simpl; [reflexivity|].
  unfold Py.min_step at 2. unfold Py.float_lt. now rewrite ltb_irrefl.
Qed.

Lemma fold_max_step_nan (l : list float) : fold_left Py.max_step l nan = nan.
Proof.
  induction l as [|x l IH]; simpl; [reflexivity|].
  unfold Py.max_step at 2. unfold Py.float_gt. now rewrite ltb_nan_l.
Qed.

Lemma fold_min_step_nan (l : list float) : fold_left Py.min_step l nan = nan.
Proof.
  induction l as [|x l IH]; simpl; [reflexivity|].
  unfold Py.min_step at 2. unfold Py.float_lt. now rewrite ltb_nan_r.
Qed.

(** X1: cells that all report the same voltage, whatever it is (NaN and the
    infinities included), never count as imbalanced; in particular a single
    cell never does. *)
Theorem equal_voltages_no_imbalance (self : BatteryReport) (v : float) :
  Forall (fun c => voltage c = v) (cells self) ->
  detect_voltage_imbalance self = Py.Ok false.
Proof.
  intros H. unfold detect_voltage_imbalance.
  destruct (cells self) as [|c cs]; [reflexivity|].
  inversion H as [|? ? Hc Hcs]; subst.
  simpl map. rewrite max_nonempty, min_nonempty. simpl Py.bind.
  assert (Hl : Forall (fun x => x = voltage c) (map voltage cs))
    by now rewrite Forall_map.
  rewrite (fold_max_step_const _ _ Hl), (fold_min_step_const _ _ Hl).
  unfold Py.float_gt, VOLTAGE_IMBALANCE_THRESHOLD.
  now rewrite sub_diag_not_above.
Qed.

Lemma equal_voltages_no_imbalance_witness :
  detect_voltage_imbalance (__init__ base_data) = Py.Ok false.
Proof.
  apply (equal_voltages_no_imbalance (__init__ base_data) 4.0%float).
  repeat constructor.
Defined.

(** X2: when the first cell of the list reports NaN for its voltage, no
    imbalance is detected, whatever the other cells report. *)
Theorem nan_first_masks_imbalance (self : BatteryReport) (c : cell) (cs : list cell) :
  cells self = c :: cs -> is_nan (voltage c) = true ->
  detect_voltage_imbalance self = Py.Ok false.
Proof.
  intros Hcells Hnan. apply is_nan_inv in Hnan.
  unfold detect_voltage_imbalance. rewrite Hcells.
  simpl map. rewrite Hnan, max_nonempty, min_nonempty. simpl Py.bind.
  rewrite fold_max_step_nan, fold_min_step_nan. reflexivity.
Qed.

Lemma nan_first_masks_imbalance_witness :
  detect_voltage_imbalance
    (__init__ (snapshot (reading 0 nan 30.0 :: [reading 1 3.0 30.0; reading 2 4.2 30.0])%float
                        300 60.0 54.0)) = Py.Ok false.
Proof.
  apply (nan_first_masks_imbalance _ (reading 0 nan 30.0%float)
           [reading 1 3.0 30.0; reading 2 4.2 30.0]%float); reflexivity.
Defined.

(** ** Overheating over a concatenation *)

(** X3: the overheating verdict on a list of cells put together from two
    lists is the disjunction of the verdicts on the parts, so that adding
    cells never clears it. *)
Theorem detect_overheating_app (d : DiagnosticData.t) (cs1 cs2 : list cell) :
  detect_overheating (__init__ (set_cells (Some (cs1 ++ cs2)%list) d)) =
    detect_overheating (__init__ (set_cells (Some cs1) d))
    || detect_overheating (__init__ (set_cells (Some cs2) d)).
Proof.
  rewrite !detect_overheating_existsb. simpl. apply existsb_app.
Qed.

(** ** What of a cell reaches the report *)

Lemma overheating_loop_temperatures (cs cs' : list cell) :
  map temperature cs = map temperature cs' ->
  overheating_loop cs = overheating_loop cs'.
Proof.
  revert cs'; induction cs as [|c cs IH]; intros [|c' cs'] H; try discriminate.
  - reflexivity.
  - simpl in H. injection H as Hc Hcs. simpl. rewrite Hc. now rewrite (IH cs').
Qed.

Lemma detect_voltage_imbalance_voltages (self self' : BatteryReport) :
  map voltage (cells self) = map voltage (cells self') ->
  detect_voltage_imbalance self = detect_voltage_imbalance self'.
Proof.
  intros H. unfold detect_voltage_imbalance.
  destruct (cells self) as [|c cs], (cells self') as [|c' cs']; try discriminate.
  - reflexivity.
  - now rewrite H.
Qed.

Lemma detect_overheating_temperatures (self self' : BatteryReport) :
  map temperature (cells self) = map temperature (cells self') ->
  detect_overheating self = detect_overheating self'.
Proof.
  intros H. unfold detect_overheating.
  destruct (cells self) as [|c cs], (cells self') as [|c' cs']; try discriminate.
  - reflexivity.
  - now apply overheating_loop_temperatures.
Qed.

(** X4: the report reads the cells through their voltages and their
    temperatures only: two snapshots whose cells agree on both, cell by
    cell, have the same report, whatever the cell identifiers are. *)
Theorem cell_ids_irrelevant (d : DiagnosticData.t) (cs cs' : list cell) :
  map voltage cs = map voltage cs' ->
  map temperature cs = map temperature cs' ->
  let self := __init__ (set_cells (Some cs) d) in
  let self' := __init__ (set_cells (Some cs') d) in
  detect_voltage_imbalance self = detect_voltage_imbalance self' /\
  detect_overheating self = detect_overheating self' /\
  generate_report self = generate_report self'.
Proof.
  intros Hv Ht self self'.
  assert (Hi : detect_voltage_imbalance self = detect_voltage_imbalance self')
    by now apply detect_voltage_imbalance_voltages.
  assert (Ho : detect_overheating self = detect_overheating self')
    by now apply detect_overheating_temperatures.
  repeat split; trivial.
  apply generate_report_ext; trivial. intros soh. now apply detect_anomalies_ext.
Qed.

Lemma cell_ids_irrelevant_witness :
  generate_report (__init__ (set_cells (Some base_cells) base_data)) =
  generate_report
    (__init__ (set_cells (Some [reading 7 4.0 30.0; reading 7 4.0 31.0; reading 9 4.0 32.0]%float)
                         base_data)).
Proof.
  apply (cell_ids_irrelevant base_data base_cells
           [reading 7 4.0 30.0; reading 7 4.0 31.0; reading 9 4.0 32.0]%float); reflexivity.
Defined.

(** ** The report against the detectors *)

Lemma In_labels_of (b1 b2 b3 : bool) :
  (In "Voltage imbalance detected" (labels_of b1 b2 b3) <-> b1 = true) /\
  (In "Overheating detected" (labels_of b1 b2 b3) <-> b2 = true) /\
  (In "Low State of Health" (labels_of b1 b2 b3) <-> b3 = true).
Proof.
  destruct b1, b2, b3; simpl; repeat split; intros H;
    try reflexivity; try discriminate H; try tauto; intuition discriminate.
Qed.

(** X5: in every report each label is present exactly when its condition
    holds on the reported data: "Low State of Health" when the reported
    [battery_soh] is below 80, "Overheating detected" when some cell is above
    45 degrees, "Voltage imbalance detected" when the imbalance detector
    answers true. *)
Theorem report_labels_match_data (d : DiagnosticData.t) :
  let self := __init__ d in
  exists s a,
    generate_report self = Py.Ok (report_of s (cycle_count self) a) /\
    (In "Low State of Health" a <-> (s <? 80)%float = true) /\
    (In "Overheating detected" a <->
     exists c, In c (cells self) /\ (45 <? temperature c)%float = true) /\
    (In "Voltage imbalance detected" a <-> detect_voltage_imbalance self = Py.Ok true).
Proof.
  intros self.
  destruct (detect_voltage_imbalance_total self) as [b Hb].
  pose proof (calculate_state_of_health_init d) as Hs. fold self in Hs.
  pose proof (detect_anomalies_unfold self (expected_soh d) b Hb) as Ha.
  exists (expected_soh d), (labels_of b (detect_overheating self)
                                      (detect_low_health self (expected_soh d))).
  destruct (In_labels_of b (detect_overheating self)
              (detect_low_health self (expected_soh d))) as [Hi [Ho Hl]].
  split; [now apply generate_report_unfold|].
  split; [exact Hl|]. split.
  - rewrite Ho, detect_overheating_existsb, existsb_exists. reflexivity.
  - rewrite Hi, Hb. split; [now intros -> | now intros [= ->]].
Qed.

(** ** Degenerate capacities *)

(** X6: a nominal capacity that is zero or absent always gives a report with
    [battery_soh] 0.0 whose last anomaly is "Low State of Health". *)
Theorem zero_nominal_is_low_health (d : DiagnosticData.t) :
  (capacity (DiagnosticData.nominal_capacity_kwh d) =? 0)%float = true ->
  exists a,
    generate_report (__init__ d) =
      Py.Ok (report_of 0 (DiagnosticData.get (DiagnosticData.cycle_count d) id 0)
                       (a ++ ["Low State of Health"])).
Proof.
  intros Hn. destruct (generate_report_init d) as [a [Ha Hr]].
  assert (Hs : expected_soh d = 0%float) by (unfold expected_soh; now rewrite Hn).
  rewrite Hs in Ha, Hr.
  destruct (detect_voltage_imbalance_total (__init__ d)) as [b Hb].
  rewrite (detect_anomalies_unfold _ _ b Hb) in Ha. injection Ha as <-.
  exists (labels_of b (detect_overheating (__init__ d)) false).
  rewrite Hr. do 2 f_equal. unfold labels_of.
  change (detect_low_health (__init__ d) 0) with true.
  rewrite !app_nil_r, app_assoc. reflexivity.
Qed.

Lemma zero_nominal_is_low_health_witness :
  exists a,
    generate_report (__init__ (snapshot base_cells 300 (-0.0) 54.0)) =
      Py.Ok (report_of 0 300 (a ++ ["Low State of Health"])).
Proof.
  apply (zero_nominal_is_low_health (snapshot base_cells 300 (-0.0) 54.0)).
  reflexivity.
Defined.

Lemma round_nan (ndigits : N) : Py.round nan ndigits = nan.
Proof. reflexivity. Qed.

(** X7: when the nominal capacity is NaN, or the current capacity is NaN and
    the nominal one is not zero, the State of Health is NaN, nothing is
    raised, and the report does not contain "Low State of Health". *)
Theorem nan_capacity_hides_low_health (d : DiagnosticData.t) :
  let current := capacity (DiagnosticData.current_capacity_kwh d) in
  let nominal := capacity (DiagnosticData.nominal_capacity_kwh d) in
  is_nan nominal = true \/ (is_nan current = true /\ (nominal =? 0)%float = false) ->
  calculate_state_of_health (__init__ d) = Py.Ok nan /\
  exists a,
    generate_report (__init__ d) =
      Py.Ok (report_of nan (DiagnosticData.get (DiagnosticData.cycle_count d) id 0) a) /\
    ~ In "Low State of Health" a.
Proof.
  intros current nominal H.
  assert (Hs : expected_soh d = nan).
  { unfold expected_soh. fold current nominal.
    destruct H as [Hn | [Hc Hn]].
    - apply is_nan_inv in Hn. rewrite Hn, eqb_nan_l, div_nan_r, mul_nan_l.
      apply round_nan.
    - apply is_nan_inv in Hc. rewrite Hn, Hc, div_nan_l, mul_nan_l.
      apply round_nan. }
  split; [rewrite calculate_state_of_health_init; now rewrite Hs|].
  destruct (generate_report_init d) as [a [Ha Hr]].
  rewrite Hs in Ha, Hr. exists a. split; [exact Hr|].
  destruct (detect_voltage_imbalance_total (__init__ d)) as [b Hb].
  rewrite (detect_anomalies_unfold _ _ b Hb) in Ha. injection Ha as <-.
  intros Hin. apply In_labels_of in Hin. discriminate Hin.
Qed.

Lemma nan_capacity_hides_low_health_witness :
  calculate_state_of_health (__init__ (snapshot base_cells 300 nan 10.0)) = Py.Ok nan.
Proof.
  apply (nan_capacity_hides_low_health (snapshot base_cells 300 nan 10.0)).
  left. reflexivity.
Defined.

(** ** NaN readings *)

Lemma max_step_nan_r (best y : float) : is_nan y = true -> Py.max_step best y = best.
Proof.
  intros H. apply is_nan_inv in H. subst y.
  unfold Py.max_step, Py.float_gt. now rewrite ltb_nan_r.
Qed.

Lemma min_step_nan_r (best y : float) : is_nan y = true -> Py.min_step best y = best.
Proof.
  intros H. apply is_nan_inv in H. subst y.
  unfold Py.min_step, Py.float_lt. now rewrite ltb_nan_l.
Qed.

Lemma fold_max_step_skip_nan (l : list float) (x : float) :
  fold_left Py.max_step (filter (fun v => negb (is_nan v)) l) x = fold_left Py.max_step l x.
Proof.
  revert x; induction l as [|y l IH]; intros x; simpl; [reflexivity|].
  destruct (is_nan y) eqn:E; simpl.
  - now rewrite (max_step_nan_r x y E).
  - apply IH.
Qed.

Lemma fold_min_step_skip_nan (l : list float) (x : float) :
  fold_left Py.min_step (filter (fun v => negb (is_nan v)) l) x = fold_left Py.min_step l x.
Proof.
  revert x; induction l as [|y l IH]; intros x; simpl; [reflexivity|].
  destruct (is_nan y) eqn:E; simpl.
  - now rewrite (min_step_nan_r x y E).
  - apply IH.
Qed.

Lemma map_filter_voltage (cs : list cell) :
  map voltage (filter (fun c => negb (is_nan (voltage c))) cs) =
  filter (fun v => negb (is_nan v)) (map voltage cs).
Proof.
  induction cs as [|c cs IH]; simpl; [reflexivity|].
  destruct (is_nan (voltage c)); simpl; now rewrite IH.
Qed.

(** X13: NaN readings are passed over in silence.  A cell whose voltage is
    NaN, anywhere but in the first position, can be removed from the list
    without changing the imbalance verdict, and a cell whose temperature is
    NaN can be removed, wherever it is, without changing the overheating
    verdict. *)
Theorem nan_readings_ignored (d : DiagnosticData.t) (c : cell) (cs : list cell) :
  detect_voltage_imbalance (__init__ (set_cells (Some (c :: cs)) d)) =
    detect_voltage_imbalance
      (__init__ (set_cells (Some (c :: filter (fun c' => negb (is_nan (voltage c'))) cs)) d))
  /\
  detect_overheating (__init__ (set_cells (Some cs) d)) =
    detect_overheating
      (__init__ (set_cells (Some (filter (fun c' => negb (is_nan (temperature c'))) cs)) d)).
Proof.
  split.
  - unfold detect_voltage_imbalance. cbn [cells __init__ set_cells DiagnosticData.cells
      DiagnosticData.get]. unfold id. cbn [map].
    rewrite !max_nonempty, !min_nonempty, map_filter_voltage.
    now rewrite fold_max_step_skip_nan, fold_min_step_skip_nan.
  - rewrite !detect_overheating_existsb.
    cbn [cells __init__ set_cells DiagnosticData.cells DiagnosticData.get]. unfold id.
    induction cs as [|c' cs IH]; [reflexivity|]. cbn [existsb filter].
    destruct (is_nan (temperature c')) eqn:E; cbn [negb existsb].
    + apply is_nan_inv in E. rewrite E. unfold Py.float_gt at 1.
      rewrite ltb_nan_r. exact IH.
    + now rewrite IH.
Qed.

(** ** A battery at its nominal capacity *)

Lemma SFdiv_diag (s : bool) (m : positive) (e : Z) :
  SF64div (S754_finite s m e) (S754_finite s m e) = S754_finite false 4503599627370496 (-52).
Proof.
  unfold SF64div, SFdiv, SFdiv_core_binary.
  replace (Zdigits2 (Zpos m) + e - (Zdigits2 (Zpos m) + e))%Z with 0%Z by lia.
  replace (e - e)%Z with 0%Z by lia.
  change (Z.min (fexp prec emax 0) 0) with (-53)%Z.
  change (0 - -53)%Z with 53%Z. cbv iota.
  rewrite Z.shiftl_mul_pow2 by lia.
  assert (Hq : Z.div_eucl (Zpos m * 2 ^ 53) (Zpos m) = (2 ^ 53, 0)%Z).
  { pose proof (Z.div_eucl_eq (Zpos m * 2 ^ 53) (Zpos m) ltac:(lia)) as H.
    pose proof (Z.mod_pos_bound (Zpos m * 2 ^ 53) (Zpos m) ltac:(lia)) as Hb.
    unfold Z.modulo in Hb.
    destruct (Z.div_eucl (Zpos m * 2 ^ 53) (Zpos m)) as [q r].
    cbn [fst snd] in *.
    assert (r = 0)%Z.
    { assert (Hr : (r = Zpos m * (2 ^ 53 - q))%Z) by lia.
      destruct (Z.lt_trichotomy (2 ^ 53 - q) 0) as [L|[E|L]]; nia. }
    subst r. f_equal. nia. }
  rewrite Hq. unfold new_location.
  destruct (Z.even (Zpos m)); destruct s; reflexivity.
Qed.

Lemma finite_nonzero_repr (x : float) :
  is_finite x = true -> (x =? 0)%float = false ->
  exists s m e, Prim2SF x = S754_finite s m e.
Proof.
  unfold is_finite, is_infinity. rewrite is_nan_Prim2SF, !eqb_spec, abs_spec.
  change (Prim2SF 0) with (S754_zero false).
  change (Prim2SF infinity) with (S754_infinity false).
  destruct (Prim2SF x) as [s|s| |s m e]; simpl; intros H1 H2; try discriminate.
  eauto.
Qed.

Lemma div_diag (x : float) :
  is_finite x = true -> (x =? 0)%float = false -> (x / x)%float = 1%float.
Proof.
  intros Hf Hz. destruct (finite_nonzero_repr x Hf Hz) as [s [m [e Hx]]].
  apply Prim2SF_inj. rewrite div_spec, Hx. apply SFdiv_diag.
Qed.

(** X14: a battery whose current capacity is its nominal capacity, a finite
    number other than zero, has a State of Health of exactly 100.0, and its
    report does not contain "Low State of Health". *)
Theorem full_capacity_is_100 (d : DiagnosticData.t) (x : float) :
  DiagnosticData.nominal_capacity_kwh d = Some x ->
  DiagnosticData.current_capacity_kwh d = Some x ->
  is_finite x = true -> (x =? 0)%float = false ->
  calculate_state_of_health (__init__ d) = Py.Ok 100%float /\
  exists a,
    generate_report (__init__ d) =
      Py.Ok (report_of 100 (DiagnosticData.get (DiagnosticData.cycle_count d) id 0) a) /\
    ~ In "Low State of Health" a.
Proof.
  intros Hn Hc Hf Hz.
  assert (Hs : expected_soh d = 100%float).
  { unfold expected_soh. rewrite Hn, Hc. cbn [capacity].
    rewrite Hz, (div_diag x Hf Hz). reflexivity. }
  split; [rewrite calculate_state_of_health_init; now rewrite Hs|].
  destruct (generate_report_init d) as [a [Ha Hr]].
  rewrite Hs in Ha, Hr. exists a. split; [exact Hr|].
  destruct (detect_voltage_imbalance_total (__init__ d)) as [b Hb].
  rewrite (detect_anomalies_unfold _ _ b Hb) in Ha. injection Ha as <-.
  intros Hin. apply In_labels_of in Hin. discriminate Hin.
Qed.

Lemma full_capacity_is_100_witness :
  calculate_state_of_health (__init__ (snapshot base_cells 300 57.3 57.3)) = Py.Ok 100%float.
Proof.
  apply (full_capacity_is_100 (snapshot base_cells 300 57.3 57.3) 57.3%float); reflexivity.
Defined.

(** * The mock data generator *)

(** ** Rounding to the nearest integer, again *)

Lemma round_half_even_mono (p p' q : Z) :
  0 < q -> p <= p' -> Py.round_half_even p q <= Py.round_half_even p' q.
Proof.
  intros Hq Hp. unfold Py.round_half_even.
  pose proof (Z.div_mod p q ltac:(lia)) as Hd.
  pose proof (Z.div_mod p' q ltac:(lia)) as Hd'.
  pose proof (Z.mod_pos_bound p q Hq) as Hm.
  pose proof (Z.mod_pos_bound p' q Hq) as Hm'.
  assert (Hk : p / q <= p' / q) by (apply Z.div_le_mono; lia).
  destruct (Z.eq_dec (p / q) (p' / q)) as [E|E].
  - rewrite <- E in *.
    destruct (Z.compare_spec (2 * (p mod q)) q), (Z.compare_spec (2 * (p' mod q)) q);
      destruct (Z.even (p / q)); lia.
  - destruct (Z.compare_spec (2 * (p mod q)) q), (Z.compare_spec (2 * (p' mod q)) q);
      destruct (Z.even (p / q)), (Z.even (p' / q)); lia.
Qed.

Lemma round_half_even_scale (p q c : Z) :
  0 < q -> 0 < c -> Py.round_half_even (p * c) (q * c) = Py.round_half_even p q.
Proof.
  intros Hq Hc. unfold Py.round_half_even.
  rewrite Z.div_mul_cancel_r by lia.
  rewrite Zmult_mod_distr_r.
  replace (2 * (p mod q * c)) with (2 * (p mod q) * c) by ring.
  rewrite <- Zmult_compare_compat_r by lia. reflexivity.
Qed.

Lemma round_half_even_exact (k q : Z) : 0 < q -> Py.round_half_even (k * q) q = k.
Proof.
  intros Hq. unfold Py.round_half_even.
  rewrite Z.div_mul, Z.mod_mul by lia.
  destruct (Z.compare_spec (2 * 0) q); lia.
Qed.

(** ** Valid binary64 numbers *)

Lemma digits2_pos_size (p : positive) : digits2_pos p = Pos.size p.
Proof. induction p; simpl; now rewrite ?IHp. Qed.

Lemma size_bounds (p : positive) :
  2 ^ (Zpos (Pos.size p) - 1) <= Zpos p < 2 ^ Zpos (Pos.size p).
Proof.
  split.
  - pose proof (Pos.size_le p) as H.
    assert (H' : 2 ^ Zpos (Pos.size p) <= 2 * Zpos p).
    { change (2 * Zpos p) with (Zpos p~0). rewrite <- Pos2Z.inj_pow. now apply Pos2Z.pos_le_pos. }
    replace (Zpos (Pos.size p)) with (Z.succ (Zpos (Pos.size p) - 1)) in H' by lia.
    rewrite Z.pow_succ_r in H' by lia. lia.
  - pose proof (Pos.size_gt p) as H.
    rewrite <- Pos2Z.inj_pow. now apply Pos2Z.pos_lt_pos.
Qed.

Lemma size_unique (p : positive) (d : Z) :
  2 ^ (d - 1) <= Zpos p < 2 ^ d -> 0 < d -> Zpos (Pos.size p) = d.
Proof.
  intros [Hlo Hhi] Hd. pose proof (size_bounds p) as [Slo Shi].
  destruct (Z.lt_trichotomy (Zpos (Pos.size p)) d) as [L|[E|L]]; [exfalso| exact E |exfalso].
  - assert (2 ^ Zpos (Pos.size p) <= 2 ^ (d - 1)) by (apply Z.pow_le_mono_r; lia). lia.
  - assert (2 ^ d <= 2 ^ (Zpos (Pos.size p) - 1)) by (apply Z.pow_le_mono_r; lia). lia.
Qed.

(** A valid finite float has its exponent between -1074 and 971 and a
    mantissa below [2^53], which is at least [2^52] unless the exponent is
    the least one. *)
Lemma valid_finite (s : bool) (m : positive) (e : Z) :
  valid_binary (S754_finite s m e) = true ->
  -1074 <= e <= 971 /\ Zpos m < 2 ^ 53 /\ (-1074 < e -> 2 ^ 52 <= Zpos m).
Proof.
  unfold SpecFloat.valid_binary, bounded, canonical_mantissa, fexp, SpecFloat.emin.
  rewrite digits2_pos_size. intros H. apply andb_prop in H as [Hc He].
  apply Z.eqb_eq in Hc. apply Z.leb_le in He.
  change (emax - prec) with 971 in He. change (3 - emax - prec) with (-1074) in Hc.
  change prec with 53 in Hc.
  pose proof (size_bounds m) as [Slo Shi].
  assert (Hs : Zpos (Pos.size m) <= 53) by lia.
  repeat split; try lia.
  - assert (2 ^ Zpos (Pos.size m) <= 2 ^ 53) by (apply Z.pow_le_mono_r; lia). lia.
  - intros Hn. assert (E : Zpos (Pos.size m) = 53) by lia. now rewrite E in Slo.
Qed.

(** ** The order of positive floats is the order of their values *)

Lemma scaled_le (m1 m2 : positive) (e1 e2 : Z) :
  valid_binary (S754_finite false m1 e1) = true ->
  valid_binary (S754_finite false m2 e2) = true ->
  SFleb (S754_finite false m1 e1) (S754_finite false m2 e2) = true ->
  e1 <= e2 /\ scaled m1 e1 <= scaled m2 e2.
Proof.
  intros V1 V2 H.
  apply valid_finite in V1 as [He1 [Hm1 Hn1]]. apply valid_finite in V2 as [He2 [Hm2 Hn2]].
  unfold SFleb, SFcompare in H. unfold scaled.
  change (Pos.compare_cont Eq m1 m2) with (Pos.compare m1 m2) in H.
  revert H.
  destruct (Z.compare_spec e1 e2) as [E|L|L]; try discriminate; intros H.
  - subst e2. split; [lia|]. revert H.
    destruct (Pos.compare_spec m1 m2) as [Em|Lm|Lm]; try discriminate; intros _.
    + subst m2. lia.
    + apply Z.mul_le_mono_nonneg_r; [apply Z.pow_nonneg; lia | lia].
  - split; [lia|].
    specialize (Hn2 ltac:(lia)).
    replace (e2 + 1074) with ((e1 + 1074) + (e2 - e1)) by lia.
    rewrite (Z.pow_add_r 2 (e1 + 1074) (e2 - e1)) by lia.
    assert (P1 : 0 < 2 ^ (e1 + 1074)) by (apply Z.pow_pos_nonneg; lia).
    assert (P2 : 2 ^ 1 <= 2 ^ (e2 - e1)) by (apply Z.pow_le_mono_r; lia).
    change (2 ^ 1) with 2 in P2.
    assert (Hm1' : Zpos m1 < 2 * 2 ^ 52) by exact Hm1.
    generalize dependent (2 ^ 52). generalize dependent (2 ^ (e1 + 1074)).
    generalize dependent (2 ^ (e2 - e1)). intros B HB A HA K _ HK HK'.
    apply Z.le_trans with (2 * K * A); [nia|].
    apply Z.le_trans with (Zpos m2 * A * 2); nia.
Qed.

Lemma decimal_numerator_scaled (m : positive) (e : Z) (ndigits : N) :
  -1074 <= e ->
  Py.decimal_numerator m e ndigits =
    Py.round_half_even (scaled m e * 10 ^ Z.of_N ndigits) (2 ^ 1074).
Proof.
  intros He. unfold Py.decimal_numerator, scaled.
  destruct (0 <=? e)%Z eqn:E.
  - apply Z.leb_le in E. rewrite (Z.pow_add_r 2 e 1074) by lia.
    replace (Zpos m * (2 ^ e * 2 ^ 1074) * 10 ^ Z.of_N ndigits)
      with (Zpos m * 2 ^ e * 10 ^ Z.of_N ndigits * 2 ^ 1074) by ring.
    now rewrite round_half_even_exact.
  - apply Z.leb_gt in E.
    assert (P : 0 < 2 ^ (e + 1074)) by (apply Z.pow_pos_nonneg; lia).
    assert (Q : 0 < 2 ^ (- e)) by (apply Z.pow_pos_nonneg; lia).
    replace (2 ^ 1074) with (2 ^ (- e) * 2 ^ (e + 1074))
      by (rewrite <- Z.pow_add_r by lia; f_equal; lia).
    replace (Zpos m * 2 ^ (e + 1074) * 10 ^ Z.of_N ndigits)
      with (Zpos m * 10 ^ Z.of_N ndigits * 2 ^ (e + 1074)) by ring.
    now rewrite round_half_even_scale.
Qed.

(** A float between two positive finite floats is positive and finite. *)
Lemma between_finite (lo hi x : float) (ml mh : positive) (el eh : Z) :
  Prim2SF lo = S754_finite false ml el ->
  Prim2SF hi = S754_finite false mh eh ->
  between lo hi x = true ->
  exists m e,
    Prim2SF x = S754_finite false m e /\
    (el <= e <= eh) /\ scaled ml el <= scaled m e <= scaled mh eh.
Proof.
  intros Hlo Hhi H. unfold between in H. apply andb_prop in H as [H1 H2].
  rewrite leb_spec in H1, H2. rewrite Hlo in H1. rewrite Hhi in H2.
  pose proof (Prim2SF_valid lo) as Vlo. pose proof (Prim2SF_valid hi) as Vhi.
  pose proof (Prim2SF_valid x) as Vx. rewrite Hlo in Vlo. rewrite Hhi in Vhi.
  destruct (Prim2SF x) as [s|s| |s m e].
  - discriminate H1.
  - destruct s; discriminate.
  - discriminate H1.
  - destruct s; [discriminate H1|].
    exists m, e. split; [reflexivity|].
    destruct (scaled_le _ _ _ _ Vlo Vx H1). destruct (scaled_le _ _ _ _ Vx Vhi H2). lia.
Qed.

(** [round] keeps a float that lies between two positive bounds among the
    finitely many decimals between the rounded bounds. *)
Lemma round_between (lo hi x : float) (ml mh : positive) (el eh : Z) (ndigits : N) :
  Prim2SF lo = S754_finite false ml el ->
  Prim2SF hi = S754_finite false mh eh ->
  eh < 0 ->
  between lo hi x = true ->
  In (Py.round x ndigits)
     (rounded_values (Py.decimal_numerator ml el ndigits)
                     (Py.decimal_numerator mh eh ndigits) ndigits).
Proof.
  intros Hlo Hhi Heh H.
  destruct (between_finite _ _ _ _ _ _ _ Hlo Hhi H) as [m [e [Hx [He Hs]]]].
  pose proof (Prim2SF_valid lo) as Vlo. rewrite Hlo in Vlo.
  apply valid_finite in Vlo as [Hel _].
  unfold Py.round. rewrite Hx.
  destruct (0 <=? e)%Z eqn:E; [apply Z.leb_le in E; lia|].
  set (n_lo := Py.decimal_numerator ml el ndigits).
  set (n_hi := Py.decimal_numerator mh eh ndigits).
  set (n := Py.decimal_numerator m e ndigits).
  assert (P10 : 0 <= 10 ^ Z.of_N ndigits) by (apply Z.pow_nonneg; lia).
  assert (P2 : 0 < 2 ^ 1074) by (apply Z.pow_pos_nonneg; lia).
  assert (Hn : n_lo <= n <= n_hi).
  { unfold n_lo, n_hi, n. rewrite !decimal_numerator_scaled by lia.
    split; apply round_half_even_mono; trivial; apply Z.mul_le_mono_nonneg_r; lia. }
  unfold rounded_values. apply in_map_iff.
  exists (Z.to_nat (n - n_lo)). split.
  - rewrite Z2Nat.id by lia. do 2 f_equal. lia.
  - apply in_seq. lia.
Qed.

(** ** Computations that return *)

Lemma returns_ret {G A : Type} (a : A) (g : G) (P : A -> Prop) :
  P a -> returns (Sim.ret a) g P.
Proof. intros H. exists a, g. now split. Qed.

Lemma returns_bind {G A B : Type} (m : Sim.M G A) (k : A -> Sim.M G B) (g : G)
  (P : B -> Prop) :
  returns m g (fun a => forall g', returns (k a) g' P) -> returns (Sim.bind m k) g P.
Proof.
  intros [a [g1 [Hm Hk]]]. destruct (Hk g1) as [b [g2 [Hb HP]]].
  exists b, g2. split; [|exact HP]. unfold Sim.bind. now rewrite Hm.
Qed.

Lemma returns_mono {G A : Type} (m : Sim.M G A) (g : G) (P Q : A -> Prop) :
  (forall a, P a -> Q a) -> returns m g P -> returns m g Q.
Proof. intros H [a [g' [Hm HP]]]. exists a, g'. auto. Qed.

Lemma returns_draw {G A : Type} (f : G -> A * G) (g : G) (P : A -> Prop) :
  P (fst (f g)) -> returns (Sim.draw f) g P.
Proof.
  intros H. exists (fst (f g)), (snd (f g)). split; [|exact H].
  unfold Sim.draw. now destruct (f g).
Qed.

Section Lawful.

Context {G : Type} (R : Random.source G) (HR : Random.lawful R).

Lemma returns_randint (a b : Z) (g : G) (P : Z -> Prop) :
  a <= b -> (forall n, a <= n <= b -> P n) -> returns (randint R a b) g P.
Proof.
  intros Hab H. unfold randint.
  destruct (a <=? b)%Z eqn:E; [|apply Z.leb_gt in E; lia].
  apply returns_draw, H. now apply (Random.randint_range R HR).
Qed.

Lemma returns_uniform (a b : float) (g : G) (P : float -> Prop) :
  (a <=? b)%float = true ->
  (forall u, between a b u = true -> P u) ->
  returns (Sim.draw (Random.uniform R a b)) g P.
Proof.
  intros Hab H. apply returns_draw, H. unfold between.
  destruct (Random.uniform_range R HR a b g Hab) as [H1 H2]. now rewrite H1, H2.
Qed.

End Lawful.

(** A loop whose body keeps an invariant of the elements visited so far and
    of the loop state returns, and the invariant holds at its end. *)
Lemma returns_for_each {G A S : Type} (body : A -> S -> Sim.M G S)
  (Inv : list A -> S -> Prop) (l : list A) :
  (forall pre x s g, Inv pre s -> In x l -> returns (body x s) g (Inv (pre ++ [x]))) ->
  forall pre s g, Inv pre s -> returns (for_each l body s) g (Inv (pre ++ l)).
Proof.
  induction l as [|x l IH]; intros Hbody pre s g Hinv; simpl.
  - rewrite app_nil_r. now apply returns_ret.
  - apply returns_bind.
    apply (returns_mono _ _ (Inv (pre ++ [x]))); [|apply Hbody; [assumption | now left]].
    intros s' Hs' g'.
    replace (pre ++ x :: l)%list with ((pre ++ [x]) ++ l)%list
      by (rewrite <- app_assoc; reflexivity).
    apply IH; [|assumption].
    intros pre' y s0 g0 H0 Hy. apply Hbody; [assumption | now right].
Qed.

Lemma returns_bind_draw {G A B : Type} (f : G -> A * G) (k : A -> Sim.M G B) (g : G)
  (P : B -> Prop) :
  (forall a g', returns (k a) g' P) -> returns (Sim.bind (Sim.draw f) k) g P.
Proof. intros H. apply returns_bind, returns_draw. intros g'. apply H. Qed.

Section LawfulBind.

Context {G : Type} (R : Random.source G) (HR : Random.lawful R).

Lemma returns_bind_randint {B : Type} (a b : Z) (k : Z -> Sim.M G B) (g : G)
  (P : B -> Prop) :
  a <= b -> (forall n g', a <= n <= b -> returns (k n) g' P) ->
  returns (Sim.bind (randint R a b) k) g P.
Proof.
  intros Hab H. apply returns_bind, (returns_randint R HR); [assumption|].
  intros n Hn g'. now apply H.
Qed.

Lemma returns_bind_uniform {B : Type} (a b : float) (k : float -> Sim.M G B) (g : G)
  (P : B -> Prop) :
  (a <=? b)%float = true ->
  (forall u g', between a b u = true -> returns (k u) g' P) ->
  returns (Sim.bind (Sim.draw (Random.uniform R a b)) k) g P.
Proof.
  intros Hab H. apply returns_bind, (returns_uniform R HR); [assumption|].
  intros u Hu g'. now apply H.
Qed.

End LawfulBind.

(** ** The ranges of the readings *)

Lemma ltb_leb (x y : float) : (x <? y)%float = true -> (x <=? y)%float = true.
Proof.
  rewrite ltb_spec, leb_spec. unfold SFltb, SFleb.
  now destruct (SFcompare (Prim2SF x) (Prim2SF y)) as [[]|].
Qed.

(** The clamp [max(3.8, min(4.2, v))] lands between its bounds whatever [v]
    is, NaN included. *)
Lemma clamp_between (v : float) : between 3.8 4.2 (max_of 3.8 (min_of 4.2 v)) = true.
Proof.
  unfold max_of, min_of, Py.max_step, Py.min_step, Py.float_gt, Py.float_lt.
  destruct (v <? 4.2)%float eqn:E1.
  - destruct (3.8 <? v)%float eqn:E2; [|reflexivity].
    unfold between. now rewrite (ltb_leb _ _ E1), (ltb_leb _ _ E2).
  - reflexivity.
Qed.

Lemma round_between_check (lo hi x : float) (ml mh : positive) (el eh : Z) (ndigits : N)
  (P : float -> bool) :
  Prim2SF lo = S754_finite false ml el ->
  Prim2SF hi = S754_finite false mh eh ->
  eh < 0 ->
  forallb P (rounded_values (Py.decimal_numerator ml el ndigits)
                            (Py.decimal_numerator mh eh ndigits) ndigits) = true ->
  between lo hi x = true ->
  P (Py.round x ndigits) = true.
Proof.
  intros Hlo Hhi Heh Hall Hx.
  rewrite forallb_forall in Hall. apply Hall.
  now apply (round_between lo hi x ml mh el eh).
Qed.

Lemma round_voltage_clamped (x : float) :
  between 3.8 4.2 x = true -> between 3.8 4.2 (Py.round x 3) = true.
Proof.
  eapply round_between_check;
    [vm_compute; reflexivity | vm_compute; reflexivity | lia | vm_compute; reflexivity].
Qed.

Lemma round_voltage_low (x : float) :
  between 3.80 3.88 x = true -> between 3.8 4.2 (Py.round x 3) = true.
Proof.
  eapply round_between_check;
    [vm_compute; reflexivity | vm_compute; reflexivity | lia | vm_compute; reflexivity].
Qed.

Lemma round_voltage_high (x : float) :
  between 4.12 4.20 x = true -> between 3.8 4.2 (Py.round x 3) = true.
Proof.
  eapply round_between_check;
    [vm_compute; reflexivity | vm_compute; reflexivity | lia | vm_compute; reflexivity].
Qed.

Lemma round_temperature_hot (x : float) :
  between 43 48 x = true -> between 25 48 (Py.round x 2) = true.
Proof.
  eapply round_between_check;
    [vm_compute; reflexivity | vm_compute; reflexivity | lia | vm_compute; reflexivity].
Qed.

Lemma round_temperature_normal (x : float) :
  between 25 42 x = true -> between 25 48 (Py.round x 2) = true.
Proof.
  eapply round_between_check;
    [vm_compute; reflexivity | vm_compute; reflexivity | lia | vm_compute; reflexivity].
Qed.

(** ** The loops of the generator *)

Lemma range_length (n : Z) : List.length (range n) = Z.to_nat n.
Proof. unfold range. now rewrite length_map, length_seq. Qed.

Lemma update_at_length {A : Type} (f : A -> A) (l : list A) (n : nat) :
  List.length (update_at n f l) = List.length l.
Proof. revert n; induction l as [|x l IH]; intros [|n]; simpl; auto. Qed.

Lemma update_at_map {A B : Type} (f : A -> A) (h : A -> B) (l : list A) (n : nat) :
  (forall x, h (f x) = h x) -> map h (update_at n f l) = map h l.
Proof.
  intros H. revert n; induction l as [|x l IH]; intros [|n]; simpl; auto.
  - now rewrite H.
  - now rewrite IH.
Qed.

Lemma update_at_Forall {A : Type} (f : A -> A) (P : A -> Prop) (l : list A) (n : nat) :
  (forall x, P x -> P (f x)) -> Forall P l -> Forall P (update_at n f l).
Proof.
  intros H. revert n; induction l as [|x l IH]; intros [|n] Hl; simpl; auto;
    inversion Hl; subst; constructor; auto.
Qed.

Lemma list_position_in_range (len : nat) (i : Z) :
  0 <= i < Z.of_nat len -> list_position len i = Some (Z.to_nat i).
Proof.
  intros H. unfold list_position.
  destruct (i <? 0)%Z eqn:E; [apply Z.ltb_lt in E; lia|].
  destruct (0 <=? i)%Z eqn:E1; [|apply Z.leb_gt in E1; lia].
  destruct (i <? Z.of_nat len)%Z eqn:E2; [|apply Z.ltb_ge in E2; lia].
  reflexivity.
Qed.

(** Writing a voltage that is in range into a cell at a valid index keeps
    the cell identifiers and the ranges. *)
Lemma returns_set_cell_voltage {G : Type} (cells : list cell) (i : Z) (v : float) (g : G)
  (ids : list Z) :
  0 <= i < Z.of_nat (List.length cells) ->
  between 3.8 4.2 v = true ->
  map cell_id cells = ids -> Forall cell_in_range cells ->
  returns (set_cell_voltage cells i v) g
          (fun cells' => map cell_id cells' = ids /\ Forall cell_in_range cells').
Proof.
  intros Hi Hv Hids Hall. unfold set_cell_voltage.
  rewrite (list_position_in_range _ _ Hi). apply returns_ret. split.
  - now rewrite update_at_map.
  - apply update_at_Forall; [|assumption].
    intros c [_ Ht]. now split.
Qed.

Section Loops.

Context {G : Type} (R : Random.source G) (HR : Random.lawful R).

Lemma returns_mock_cell (base_voltage : float) (i : Z) (cells : list cell) (g : G)
  (pre : list Z) :
  map cell_id cells = pre /\ Forall cell_in_range cells ->
  returns (mock_cell R base_voltage i cells) g
          (fun cells' => map cell_id cells' = pre ++ [i] /\ Forall cell_in_range cells').
Proof.
  intros [Hids Hall]. unfold mock_cell.
  apply returns_bind_draw. intros variation g1.
  apply returns_bind_draw. intros hot g2.
  assert (Hv : between 3.8 4.2
                 (Py.round (max_of 3.8 (min_of 4.2 (base_voltage + variation)%float)) 3) = true)
    by apply round_voltage_clamped, clamp_between.
  assert (Hend : forall t, between 25 48 (Py.round t 2) = true ->
            forall g' : G, returns
              (Sim.ret (cells ++ [ {| cell_id := i;
                  voltage := Py.round (max_of 3.8 (min_of 4.2 (base_voltage + variation)%float)) 3;
                  temperature := Py.round t 2 |} ])) g'
              (fun cells' => map cell_id cells' = pre ++ [i] /\ Forall cell_in_range cells')).
  { intros t Ht g'. apply returns_ret. split.
    - rewrite map_app, Hids. reflexivity.
    - apply Forall_app. split; [assumption|]. constructor; [|constructor]. now split. }
  destruct (Py.float_lt hot 0.05).
  - apply (returns_bind_uniform R HR); [reflexivity|].
    intros t g3 Ht. apply Hend. now apply round_temperature_hot.
  - apply (returns_bind_uniform R HR); [reflexivity|].
    intros t g3 Ht. apply Hend. now apply round_temperature_normal.
Qed.

Lemma returns_unbalance_cell (cell_count : Z) (cells : list cell) (g : G) :
  0 < cell_count ->
  map cell_id cells = range cell_count /\ Forall cell_in_range cells ->
  returns (unbalance_cell R cell_count cells) g
          (fun cells' => map cell_id cells' = range cell_count /\ Forall cell_in_range cells').
Proof.
  intros Hn [Hids Hall]. unfold unbalance_cell.
  assert (Hlen : Z.of_nat (List.length cells) = cell_count).
  { rewrite <- (length_map cell_id), Hids, range_length. lia. }
  apply (returns_bind_randint R HR); [lia|]. intros idx g1 Hidx.
  apply returns_bind_draw. intros low g2.
  destruct (Py.float_lt low 0.5).
  - apply (returns_bind_uniform R HR); [reflexivity|]. intros v g3 Hv.
    apply returns_set_cell_voltage; trivial; [lia | now apply round_voltage_low].
  - apply (returns_bind_uniform R HR); [reflexivity|]. intros v g3 Hv.
    apply returns_set_cell_voltage; trivial; [lia | now apply round_voltage_high].
Qed.

(** Every log of the generator has the shape [simulated] describes, and the
    generator raises nothing. *)
Lemma generate_mock_diagnostic_log_simulated (utcnow : string) (g : G) :
  returns (generate_mock_diagnostic_log R utcnow) g (simulated utcnow).
Proof.
  unfold generate_mock_diagnostic_log.
  apply (returns_bind_randint R HR); [lia|]. intros serial g1 Hserial.
  apply (returns_bind_randint R HR); [lia|]. intros cell_count g2 Hcount.
  apply (returns_bind_uniform R HR); [reflexivity|]. intros base_voltage g3 _.
  apply returns_bind.
  apply (returns_mono _ _
           (fun cells => map cell_id cells = [] ++ range cell_count /\
                         Forall cell_in_range cells)).
  2:{ apply (returns_for_each (mock_cell R base_voltage)
               (fun pre cells => map cell_id cells = pre /\ Forall cell_in_range cells)).
      - intros pre i cells g' Hinv _. now apply returns_mock_cell.
      - split; [reflexivity | constructor]. }
  intros cells [Hids Hall] g4. simpl app in Hids.
  apply returns_bind_draw. intros unbalance g5.
  assert (Hrest : forall (cells' : list cell) (g' : G),
            map cell_id cells' = range cell_count /\ Forall cell_in_range cells' ->
            returns
              (Sim.bind (randint R 100 800) (fun cycle_count =>
               Sim.bind
                 (if (cycle_count <? 300)%Z then Sim.draw (Random.uniform R 0.95 1.0)
                  else if (cycle_count <? 600)%Z then Sim.draw (Random.uniform R 0.85 0.95)
                  else Sim.draw (Random.uniform R 0.80 0.90))
                 (fun capacity_percentage =>
                  Sim.ret
                    {| DiagnosticData.vehicle_id := Some ("EV-" ++ str_of_int serial)%string;
                       DiagnosticData.timestamp := Some (utcnow ++ "Z")%string;
                       DiagnosticData.cells := Some cells';
                       DiagnosticData.cycle_count := Some cycle_count;
                       DiagnosticData.nominal_capacity_kwh := Some 60.0%float;
                       DiagnosticData.current_capacity_kwh :=
                         Some (Py.round (60.0 * capacity_percentage)%float 2) |})))
              g' (simulated utcnow)).
  { intros cells' g' [Hids' Hall'].
    assert (Hlen : Z.of_nat (List.length cells') = cell_count).
    { rewrite <- (length_map cell_id), Hids', range_length. lia. }
    apply (returns_bind_randint R HR); [lia|]. intros cycles g6 Hcycles.
    assert (Hfin : forall (pct : float) (g0 : G),
              between (percentage_low cycles) (percentage_high cycles) pct = true ->
              returns
                (Sim.ret
                   {| DiagnosticData.vehicle_id := Some ("EV-" ++ str_of_int serial)%string;
                      DiagnosticData.timestamp := Some (utcnow ++ "Z")%string;
                      DiagnosticData.cells := Some cells';
                      DiagnosticData.cycle_count := Some cycles;
                      DiagnosticData.nominal_capacity_kwh := Some 60.0%float;
                      DiagnosticData.current_capacity_kwh :=
                        Some (Py.round (60.0 * pct)%float 2) |})
                g0 (simulated utcnow)).
    { intros pct g0 Hpct. apply returns_ret.
      exists serial, cells', cycles, pct. rewrite Hlen. repeat split; trivial; lia. }
    unfold percentage_low, percentage_high in Hfin.
    destruct (cycles <? 300)%Z; [|destruct (cycles <? 600)%Z];
      (apply (returns_bind_uniform R HR); [reflexivity|]); intros pct g7 Hpct;
      now apply Hfin. }
  destruct (Py.float_lt unbalance 0.3).
  - apply returns_bind. apply (returns_bind_randint R HR); [lia|].
    intros imbalance_count g6 _.
    apply (returns_mono _ _
             (fun cells' => map cell_id cells' = range cell_count /\
                            Forall cell_in_range cells')).
    + intros cells' H' g'. now apply Hrest.
    + apply (returns_for_each (fun _ : Z => unbalance_cell R cell_count)
               (fun _ cells' => map cell_id cells' = range cell_count /\
                                Forall cell_in_range cells') (range imbalance_count)
               ltac:(intros pre x s g' Hinv _; apply returns_unbalance_cell; [lia|exact Hinv])
               []).
      now split.
  - apply returns_bind, returns_ret. intros g'. now apply Hrest.
Qed.

End Loops.

(** ** Multiplication of two positive floats

    [SFmul] rounds the exact product of the mantissas by shifting it right
    one bit at a time, keeping a round bit and a sticky bit.  The shifted
    and rounded mantissa is the exact product divided by a power of two and
    rounded to the nearest integer, ties to even. *)

Lemma iter_pos_nat {A : Type} (f : A -> A) (p : positive) (x : A) :
  iter_pos f p x = Nat.iter (Pos.to_nat p) f x.
Proof.
  revert x; induction p as [p IH|p IH|]; intros x; simpl iter_pos.
  - rewrite !IH, Pos2Nat.inj_xI, <- Nat.iter_add, Nat.iter_succ_r.
    f_equal. lia.
  - rewrite !IH, Pos2Nat.inj_xO, <- Nat.iter_add. f_equal. lia.
  - reflexivity.
Qed.

Lemma shr_1_nonneg (m : Z) (r s : bool) :
  0 <= m ->
  shr_1 (Build_shr_record m r s) =
    Build_shr_record (m / 2) (Z.odd m) (r || s).
Proof.
  intros Hm. destruct m as [|p|p]; [reflexivity| |lia].
  destruct p as [p|p|]; simpl shr_1.
  - assert (E : Zpos p~1 / 2 = Zpos p)
      by (rewrite Pos2Z.inj_xI; symmetry; apply Z.div_unique with 1; lia).
    now rewrite E.
  - assert (E : Zpos p~0 / 2 = Zpos p)
      by (rewrite Pos2Z.inj_xO; symmetry; apply Z.div_unique with 0; lia).
    now rewrite E.
  - reflexivity.
Qed.

Lemma shr_iter_invariant (M : Z) (n : nat) :
  0 <= M ->
  let rec := Nat.iter n shr_1 (Build_shr_record M false false) in
  0 <= shr_m rec /\
  exists t, 0 <= t < 2 ^ Z.of_nat n /\
            2 * M = shr_m rec * 2 ^ (Z.of_nat n + 1)
                    + Z.b2z (shr_r rec) * 2 ^ Z.of_nat n + t /\
            (shr_s rec = true <-> t <> 0).
Proof.
  intros HM. induction n as [|n IH]; cbv zeta.
  - cbn [Nat.iter nat_rect shr_m shr_r shr_s Z.b2z Z.of_nat].
    change (2 ^ (0 + 1)) with 2. change (2 ^ 0) with 1.
    split; [assumption|]. exists 0.
    split; [lia|]. split; [lia|]. split; [discriminate | intros H; now contradiction H].
  - rewrite Nat.iter_succ. cbv zeta in IH.
    destruct IH as [Hm [t [Ht [Heq Hs]]]].
    destruct (Nat.iter n shr_1 (Build_shr_record M false false)) as [m r s].
    cbn [shr_m shr_r shr_s] in Hm, Heq, Hs.
    rewrite (shr_1_nonneg m r s Hm). cbn [shr_m shr_r shr_s].
    rewrite Nat2Z.inj_succ.
    assert (P : 0 < 2 ^ Z.of_nat n) by (apply Z.pow_pos_nonneg; lia).
    rewrite (Z.pow_add_r 2 (Z.of_nat n) 1) in Heq by lia.
    rewrite (Z.pow_add_r 2 (Z.succ (Z.of_nat n)) 1) by lia.
    rewrite !Z.pow_succ_r by lia.
    change (2 ^ 1) with 2 in *.
    split; [apply Z.div_pos; lia|].
    exists (Z.b2z r * 2 ^ Z.of_nat n + t).
    pose proof (Z.div_mod m 2 ltac:(lia)) as Hd.
    rewrite Zmod_odd in Hd.
    split; [destruct r; cbn [Z.b2z]; lia|]. split.
    + destruct (Z.odd m); cbn [Z.b2z] in *; nia.
    + destruct r; cbn [Z.b2z orb].
      * split; [lia | reflexivity].
      * rewrite Hs. split; intros H; lia.
Qed.

Lemma shr_round_half_even (M : Z) (n : nat) :
  0 <= M ->
  let rec := Nat.iter n shr_1 (Build_shr_record M false false) in
  round_nearest_even (shr_m rec) (loc_of_shr_record rec) =
    Py.round_half_even M (2 ^ Z.of_nat n).
Proof.
  intros HM rec. destruct (shr_iter_invariant M n HM) as [Hm [t [Ht [Heq Hs]]]].
  fold rec in Hm, Heq, Hs. destruct rec as [m r s]. cbn [shr_m shr_r shr_s] in *.
  assert (P : 0 < 2 ^ Z.of_nat n) by (apply Z.pow_pos_nonneg; lia).
  rewrite (Z.pow_add_r 2 (Z.of_nat n) 1) in Heq by lia. change (2 ^ 1) with 2 in Heq.
  set (q := 2 ^ Z.of_nat n) in *.
  assert (Hrem : 0 <= M - m * q < q) by (destruct r; cbn [Z.b2z] in Heq; lia).
  assert (Hdiv : M / q = m) by (symmetry; apply Z.div_unique with (M - m * q); lia).
  assert (Hmod : M mod q = M - m * q) by (symmetry; apply Z.mod_unique with m; lia).
  unfold Py.round_half_even. rewrite Hdiv, Hmod.
  destruct r, s; cbn [loc_of_shr_record round_nearest_even Z.b2z] in *.
  - assert (t <> 0) by now apply Hs.
    destruct (Z.compare_spec (2 * (M - m * q)) q); lia.
  - assert (t = 0) by (destruct (Z.eq_dec t 0); [assumption|]; now apply Hs in n0).
    destruct (Z.compare_spec (2 * (M - m * q)) q); lia || reflexivity.
  - destruct (Z.compare_spec (2 * (M - m * q)) q); lia.
  - destruct (Z.compare_spec (2 * (M - m * q)) q); lia.
Qed.

(** Rounding a positive mantissa that needs [p] bits shifted out and whose
    rounded value still fits in 53 bits. *)
Lemma binary_round_aux_shift (sx : bool) (M r p : positive) (ex : Z) :
  fexp prec emax (Zdigits2 (Zpos M) + ex) - ex = Zpos p ->
  Py.round_half_even (Zpos M) (2 ^ Zpos p) = Zpos r ->
  Zpos (Pos.size r) = 53 ->
  ex + Zpos p <= 971 ->
  binary_round_aux prec emax sx (Zpos M) ex loc_Exact = S754_finite sx r (ex + Zpos p).
Proof.
  intros Hshift Hround Hsize He.
  unfold binary_round_aux.
  unfold shr_fexp at 1. rewrite Hshift. unfold shr at 1.
  cbn [shr_record_of_loc]. rewrite iter_pos_nat.
  rewrite (shr_round_half_even (Zpos M) (Pos.to_nat p)) by lia.
  rewrite positive_nat_Z, Hround.
  assert (Hfexp : fexp prec emax (Zdigits2 (Zpos r) + (ex + Zpos p)) - (ex + Zpos p) = 0).
  { cbn [Zdigits2]. rewrite digits2_pos_size, Hsize.
    unfold fexp in *. unfold SpecFloat.emin in *. change prec with 53 in *.
    change (3 - emax - 53) with (-1074) in *. lia. }
  unfold shr_fexp. rewrite Hfexp. cbn [shr shr_record_of_loc shr_m].
  change (emax - prec) with 971.
  destruct (ex + Zpos p <=? 971)%Z eqn:E; [reflexivity | apply Z.leb_gt in E; lia].
Qed.

Lemma SFleb_trans (x y z : spec_float) :
  SFleb x y = true -> SFleb y z = true -> SFleb x z = true.
Proof.
  unfold SFleb.
  destruct x as [sx|sx| |sx mx ex], y as [sy|sy| |sy my ey], z as [sz|sz| |sz mz ez];
    try destruct sx; try destruct sy; try destruct sz; simpl;
    try discriminate; try reflexivity; intros H1 H2; split_compare.
Qed.

Lemma leb_trans (x y z : float) :
  (x <=? y)%float = true -> (y <=? z)%float = true -> (x <=? z)%float = true.
Proof. rewrite !leb_spec. apply SFleb_trans. Qed.

Lemma between_narrow (a b lo hi x : float) :
  between a b lo = true -> between a b hi = true -> between lo hi x = true ->
  between a b x = true.
Proof.
  unfold between. intros H1 H2 H3.
  apply andb_prop in H1 as [H1 _]. apply andb_prop in H2 as [_ H2].
  apply andb_prop in H3 as [H3 H4].
  now rewrite (leb_trans _ _ _ H1 H3), (leb_trans _ _ _ H4 H2).
Qed.

(** ** The current capacity: [60.0 * capacity_percentage] *)

(** The product of 60.0 and a percentage between 0.8 and 1.0: its mantissa
    is the exact product rounded to the nearest integer. *)
Lemma mul60_repr (pct : float) :
  between 0.8 1.0 pct = true ->
  exists m e r,
    Prim2SF pct = S754_finite false m e /\
    Prim2SF (60.0 * pct)%float = S754_finite false r (-47) /\
    Zpos r = Py.round_half_even (8444249301319680 * scaled m e) (2 ^ 1074).
Proof.
  intros H.
  destruct (between_finite 0.8 1.0 pct 7205759403792794 4503599627370496 (-53) (-52)
              eq_refl eq_refl H) as [m [e [Hx [He [Hlo Hhi]]]]].
  pose proof (Prim2SF_valid pct) as V. rewrite Hx in V.
  apply valid_finite in V as [_ [Hm Hn]]. specialize (Hn ltac:(lia)).
  exists m, e. unfold scaled in *.
  assert (P1021 : 0 < 2 ^ 1021) by (apply Z.pow_pos_nonneg; lia).
  assert (E1074 : 2 ^ 1074 = 2 ^ 53 * 2 ^ 1021) by (rewrite <- Z.pow_add_r by lia; reflexivity).
  assert (E1022 : 2 ^ 1022 = 2 * 2 ^ 1021)
    by (change 1022 with (Z.succ 1021); rewrite Z.pow_succ_r by lia; reflexivity).
  destruct (Z.eq_dec e (-53)) as [->|Ne].
  - change (-53 + 1074) with 1021 in *.
    assert (Hm08 : 7205759403792794 <= Zpos m) by nia.
    set (M := (8444249301319680 * m)%positive).
    assert (HM : Zpos M = 8444249301319680 * Zpos m) by reflexivity.
    assert (Hr : 6755399441055744 <= Py.round_half_even (Zpos M) (2 ^ 53)
                 <= 8444249301319680).
    { assert (Elo : Py.round_half_even (8444249301319680 * 7205759403792794) (2 ^ 53)
                    = 6755399441055744) by (vm_compute; reflexivity).
      split.
      - rewrite <- Elo. apply round_half_even_mono; lia.
      - apply Z.le_trans with (Py.round_half_even (8444249301319680 * 2 ^ 53) (2 ^ 53));
          [apply round_half_even_mono; lia | rewrite round_half_even_exact; lia]. }
    destruct (Py.round_half_even (Zpos M) (2 ^ 53)) as [|r|r] eqn:Er; try lia.
    exists r. split; [assumption|]. split.
    + rewrite mul_spec, Hx. change (Prim2SF 60) with (S754_finite false 8444249301319680 (-47)).
      unfold SF64mul, SFmul. cbn [xorb].
      change (-47 + -53) with (-100).
      change (Pos.mul 8444249301319680 m) with M.
      change (-47) with (-100 + 53).
      apply binary_round_aux_shift; try assumption; try lia.
      * cbn [Zdigits2]. rewrite digits2_pos_size.
        rewrite (size_unique M 106) by (change (2 ^ (106 - 1)) with 40564819207303340847894502572032;
          change (2 ^ 106) with 81129638414606681695789005144064;
          change (2 ^ 53) with 9007199254740992 in Hm; lia).
        reflexivity.
      * apply size_unique; [|lia].
        change (2 ^ (53 - 1)) with 4503599627370496. change (2 ^ 53) with 9007199254740992.
        lia.
    + rewrite <- Er, HM, E1074.
      replace (8444249301319680 * (Zpos m * 2 ^ 1021))
        with (8444249301319680 * Zpos m * 2 ^ 1021) by ring.
      rewrite round_half_even_scale; [reflexivity | apply Z.pow_pos_nonneg; lia | lia].
  - assert (e = -52) by lia. subst e. change (-52 + 1074) with 1022 in *.
    assert (Em : Zpos m = 4503599627370496).
    { change (2 ^ 52) with 4503599627370496 in Hn. rewrite E1022 in Hhi. nia. }
    injection Em as ->.
    assert (Epct : pct = 1%float) by (apply Prim2SF_inj; rewrite Hx; reflexivity).
    subst pct. exists 8444249301319680%positive.
    split; [reflexivity|]. split; [reflexivity|].
    replace (8444249301319680 * (4503599627370496 * 2 ^ 1022))
      with (8444249301319680 * 2 ^ 1074).
    + rewrite round_half_even_exact; [reflexivity | apply Z.pow_pos_nonneg; lia].
    + rewrite E1074, E1022. change (2 ^ 53) with (2 * 4503599627370496). ring.
Qed.

(** On percentages between 0.8 and 1.0, multiplication by 60.0 is monotone. *)
Lemma mul60_le (p q : float) :
  between 0.8 1.0 p = true -> between 0.8 1.0 q = true ->
  (p <=? q)%float = true -> (60.0 * p <=? 60.0 * q)%float = true.
Proof.
  intros Hp Hq Hle.
  destruct (mul60_repr p Hp) as [mp [ep [rp [Fp [Fp' Erp]]]]].
  destruct (mul60_repr q Hq) as [mq [eq [rq [Fq [Fq' Erq]]]]].
  pose proof (Prim2SF_valid p) as Vp. pose proof (Prim2SF_valid q) as Vq.
  rewrite Fp in Vp. rewrite Fq in Vq.
  rewrite leb_spec in Hle |- *. rewrite Fp, Fq in Hle. rewrite Fp', Fq'.
  destruct (scaled_le _ _ _ _ Vp Vq Hle) as [_ Hs].
  assert (Hr : Zpos rp <= Zpos rq).
  { rewrite Erp, Erq. apply round_half_even_mono; [apply Z.pow_pos_nonneg; lia | lia]. }
  unfold SFleb, SFcompare. rewrite Z.compare_refl.
  change (Pos.compare_cont Eq rp rq) with (Pos.compare rp rq).
  destruct (Pos.compare_spec rp rq); try reflexivity. lia.
Qed.

Lemma capacity_between (lo hi pct : float) :
  between 0.8 1.0 lo = true -> between 0.8 1.0 hi = true ->
  between lo hi pct = true ->
  between (60.0 * lo) (60.0 * hi) (60.0 * pct)%float = true.
Proof.
  intros Hlo Hhi H.
  pose proof (between_narrow _ _ _ _ _ Hlo Hhi H) as Hpct.
  unfold between in H |- *. apply andb_prop in H as [H1 H2].
  now rewrite (mul60_le _ _ Hlo Hpct H1), (mul60_le _ _ Hpct Hhi H2).
Qed.

Lemma soh_of_simulated_capacity (cycles : Z) (pct : float) :
  between (percentage_low cycles) (percentage_high cycles) pct = true ->
  between (soh_low cycles) (soh_high cycles)
          (soh_of_current (Py.round (60.0 * pct)%float 2)) = true.
Proof.
  unfold percentage_low, percentage_high, soh_low, soh_high.
  destruct (cycles <? 300)%Z; [|destruct (cycles <? 600)%Z]; intros H.
  - apply (capacity_between 0.95 1.0 pct eq_refl eq_refl) in H. revert H.
    eapply (round_between_check _ _ _ _ _ _ _ 2
              (fun c => between 95 100 (soh_of_current c)));
      [vm_compute; reflexivity | vm_compute; reflexivity | lia | vm_compute; reflexivity].
  - apply (capacity_between 0.85 0.95 pct eq_refl eq_refl) in H. revert H.
    eapply (round_between_check _ _ _ _ _ _ _ 2
              (fun c => between 85 95 (soh_of_current c)));
      [vm_compute; reflexivity | vm_compute; reflexivity | lia | vm_compute; reflexivity].
  - apply (capacity_between 0.80 0.90 pct eq_refl eq_refl) in H. revert H.
    eapply (round_between_check _ _ _ _ _ _ _ 2
              (fun c => between 80 90 (soh_of_current c)));
      [vm_compute; reflexivity | vm_compute; reflexivity | lia | vm_compute; reflexivity].
Qed.

(** ** A lawful source *)

Lemma leb_refl_of (a b : float) : (a <=? b)%float = true -> (a <=? a)%float = true.
Proof.
  rewrite !leb_spec. unfold SFleb, SFcompare.
  destruct (Prim2SF a) as [s|s| |s m e]; try destruct s; try reflexivity;
    try (now destruct (Prim2SF b)); intros _;
    rewrite Z.compare_refl; change (Pos.compare_cont Eq m m) with (Pos.compare m m);
    now rewrite Pos.compare_refl.
Qed.

Lemma lowest_lawful : Random.lawful lowest.
Proof.
  split.
  - intros a b g H. simpl. lia.
  - intros a b g H. simpl. split; [now apply (leb_refl_of a b) | assumption].
Qed.

(** ** What the analyzer makes of a generated log *)

Lemma leb_not_nan_r (a v : float) : (a <=? v)%float = true -> is_nan v = false.
Proof.
  rewrite leb_spec, is_nan_Prim2SF. unfold SFleb, SFcompare.
  destruct (Prim2SF v); try reflexivity. now destruct (Prim2SF a).
Qed.

Lemma leb_not_below (a v : float) : (a <=? v)%float = true -> (v <? a)%float = false.
Proof.
  intros H. pose proof (leb_not_nan_r _ _ H) as Hv.
  assert (Ha : is_nan a = false).
  { revert H. rewrite leb_spec, is_nan_Prim2SF. unfold SFleb, SFcompare.
    now destruct (Prim2SF a). }
  rewrite (leb_not_ltb a v Ha Hv) in H. now apply negb_true_iff in H.
Qed.

Lemma cell_in_range_no_nan (cs : list cell) :
  Forall cell_in_range cs -> no_nan_voltage cs.
Proof.
  unfold no_nan_voltage. apply Forall_impl. intros c [Hv _].
  unfold between in Hv. apply andb_prop in Hv as [Hv _]. now apply (leb_not_nan_r 3.8).
Qed.

Lemma simulated_report (utcnow : string) (d : DiagnosticData.t) :
  simulated utcnow d ->
  exists cycles s a,
    DiagnosticData.cycle_count d = Some cycles /\
    100 <= cycles <= 800 /\
    generate_report (__init__ d) = Py.Ok (report_of s cycles a) /\
    between (soh_low cycles) (soh_high cycles) s = true /\
    ~ In "Low State of Health" a.
Proof.
  intros [serial [cs [cycles [pct [-> [_ [_ [_ [_ [Hcycles Hpct]]]]]]]]]].
  set (d := {| DiagnosticData.vehicle_id := _ |}).
  destruct (generate_report_init d) as [a [Ha Hr]].
  assert (Hs : expected_soh d = soh_of_current (Py.round (60.0 * pct)%float 2))
    by reflexivity.
  rewrite Hs in Ha, Hr.
  pose proof (soh_of_simulated_capacity cycles pct Hpct) as Hsoh.
  exists cycles, (soh_of_current (Py.round (60.0 * pct)%float 2)), a.
  repeat split; trivial; try lia.
  destruct (detect_voltage_imbalance_total (__init__ d)) as [b Hb].
  rewrite (detect_anomalies_unfold _ _ b Hb) in Ha. injection Ha as <-.
  intros Hin. apply In_labels_of in Hin.
  unfold detect_low_health, Py.float_lt, LOW_HEALTH_THRESHOLD in Hin.
  assert (H80 : (80 <=? soh_of_current (Py.round (60.0 * pct)%float 2))%float = true).
  { unfold between in Hsoh. apply andb_prop in Hsoh as [Hlo _].
    apply leb_trans with (soh_low cycles); [|exact Hlo].
    unfold soh_low. destruct (cycles <? 300)%Z; [|destruct (cycles <? 600)%Z]; reflexivity. }
  rewrite (leb_not_below _ _ H80) in Hin. discriminate Hin.
Qed.

(** ** Properties of the generated logs *)

Section GeneratedLogs.

Context {G : Type} (R : Random.source G).
Hypothesis HR : Random.lawful R.
Variables (utcnow : string) (g : G).

(** X8: the generator raises nothing and returns a dictionary with all six
    keys: the vehicle identifier is "EV-" followed by a number between 10000
    and 99999, the timestamp is the clock reading followed by "Z", there
    are between 80 and 120 cells, numbered from 0 in order, the cycle count
    is between 100 and 800 and the nominal capacity is 60.0. *)
Theorem generated_log_shape :
  exists d g',
    generate_mock_diagnostic_log R utcnow g = inr (d, g') /\
    exists (serial : Z) (cs : list cell) (cycles : Z) (current : float),
      d = {| DiagnosticData.vehicle_id := Some ("EV-" ++ str_of_int serial)%string;
             DiagnosticData.timestamp := Some (utcnow ++ "Z")%string;
             DiagnosticData.cells := Some cs;
             DiagnosticData.cycle_count := Some cycles;
             DiagnosticData.nominal_capacity_kwh := Some 60.0%float;
             DiagnosticData.current_capacity_kwh := Some current |} /\
      10000 <= serial <= 99999 /\
      80 <= Z.of_nat (List.length cs) <= 120 /\
      map cell_id cs = range (Z.of_nat (List.length cs)) /\
      100 <= cycles <= 800.
Proof.
  destruct (generate_mock_diagnostic_log_simulated R HR utcnow g) as [d [g' [Hd Hsim]]].
  exists d, g'. split; [exact Hd|].
  destruct Hsim as [serial [cs [cycles [pct [-> [H1 [H2 [H3 [_ [H4 _]]]]]]]]]].
  exists serial, cs, cycles, (Py.round (60.0 * pct)%float 2). repeat split; trivial; lia.
Qed.

(** X9: in every generated log each cell voltage lies between 3.8 and 4.2
    and each cell temperature between 25 and 48, whatever [gauss] and
    [random] return. *)
Theorem generated_readings_in_range :
  exists d g' cs,
    generate_mock_diagnostic_log R utcnow g = inr (d, g') /\
    DiagnosticData.cells d = Some cs /\
    Forall (fun c => (3.8 <=? voltage c)%float = true /\ (voltage c <=? 4.2)%float = true /\
                     (25 <=? temperature c)%float = true /\
                     (temperature c <=? 48)%float = true) cs.
Proof.
  destruct (generate_mock_diagnostic_log_simulated R HR utcnow g) as [d [g' [Hd Hsim]]].
  destruct Hsim as [serial [cs [cycles [pct [-> [_ [_ [_ [Hall _]]]]]]]]].
  eexists. exists g', cs. split; [exact Hd|]. split; [reflexivity|].
  revert Hall. apply Forall_impl. intros c [Hv Ht]. unfold between in Hv, Ht.
  apply andb_prop in Hv as [Hv1 Hv2]. apply andb_prop in Ht as [Ht1 Ht2]. auto.
Qed.

(** X10: the report on a generated log has a State of Health between 95
    and 100 when the cycle count is below 300, between 85 and 95 when it is
    below 600, and between 80 and 90 otherwise; its cycle count is the one
    of the log. *)
Theorem generated_soh_by_age :
  exists d g' cycles s a,
    generate_mock_diagnostic_log R utcnow g = inr (d, g') /\
    DiagnosticData.cycle_count d = Some cycles /\
    generate_report (__init__ d) = Py.Ok (report_of s cycles a) /\
    (if (cycles <? 300)%Z then (95 <=? s)%float && (s <=? 100)%float
     else if (cycles <? 600)%Z then (85 <=? s)%float && (s <=? 95)%float
     else (80 <=? s)%float && (s <=? 90)%float) = true.
Proof.
  destruct (generate_mock_diagnostic_log_simulated R HR utcnow g) as [d [g' [Hd Hsim]]].
  destruct (simulated_report utcnow d Hsim) as [cycles [s [a [Hc [_ [Hr [Hs _]]]]]]].
  exists d, g', cycles, s, a. repeat split; trivial.
  unfold between, soh_low, soh_high in Hs.
  destruct (cycles <? 300)%Z; [|destruct (cycles <? 600)%Z]; exact Hs.
Qed.

(** X11: the report on a generated log never contains "Low State of
    Health": the generator keeps the current capacity at 80 percent of the
    nominal one or more, and the threshold is strict. *)
Theorem generated_log_never_low_health :
  exists d g' r a,
    generate_mock_diagnostic_log R utcnow g = inr (d, g') /\
    generate_report (__init__ d) = Py.Ok r /\
    lookup "anomalies" r = Some (VList a) /\
    ~ In "Low State of Health" a.
Proof.
  destruct (generate_mock_diagnostic_log_simulated R HR utcnow g) as [d [g' [Hd Hsim]]].
  destruct (simulated_report utcnow d Hsim) as [cycles [s [a [_ [_ [Hr [_ Hlow]]]]]]].
  exists d, g', (report_of s cycles a), a. repeat split; trivial.
Qed.

(** X12: no generated log has a NaN voltage, so that the report on a
    generated log does not depend on the order of its cells. *)
Theorem generated_report_order_free :
  exists d g' cs,
    generate_mock_diagnostic_log R utcnow g = inr (d, g') /\
    DiagnosticData.cells d = Some cs /\
    forall cs', Permutation cs cs' ->
      generate_report (__init__ (set_cells (Some cs') d)) = generate_report (__init__ d).
Proof.
  destruct (generate_mock_diagnostic_log_simulated R HR utcnow g) as [d [g' [Hd Hsim]]].
  destruct Hsim as [serial [cs [cycles [pct [-> [_ [_ [_ [Hall _]]]]]]]]].
  eexists. exists g', cs. split; [exact Hd|]. split; [reflexivity|].
  intros cs' Hperm. symmetry.
  assert (Hv : detect_voltage_imbalance
                 (__init__ {| DiagnosticData.vehicle_id := Some ("EV-" ++ str_of_int serial)%string;
                              DiagnosticData.timestamp := Some (utcnow ++ "Z")%string;
                              DiagnosticData.cells := Some cs;
                              DiagnosticData.cycle_count := Some cycles;
                              DiagnosticData.nominal_capacity_kwh := Some 60.0%float;
                              DiagnosticData.current_capacity_kwh :=
                                Some (Py.round (60.0 * pct)%float 2) |}) =
               detect_voltage_imbalance
                 (__init__ (set_cells (Some cs')
                           {| DiagnosticData.vehicle_id := Some ("EV-" ++ str_of_int serial)%string;
                              DiagnosticData.timestamp := Some (utcnow ++ "Z")%string;
                              DiagnosticData.cells := Some cs;
                              DiagnosticData.cycle_count := Some cycles;
                              DiagnosticData.nominal_capacity_kwh := Some 60.0%float;
                              DiagnosticData.current_capacity_kwh :=
                                Some (Py.round (60.0 * pct)%float 2) |}))).
  { apply detect_voltage_imbalance_perm; [exact Hperm | now apply cell_in_range_no_nan]. }
  apply generate_report_ext; try reflexivity.
  intros soh. apply detect_anomalies_ext; [exact Hv|].
  now apply detect_overheating_perm.
Qed.

End GeneratedLogs.

Lemma generated_log_shape_witness :
  exists d g',
    generate_mock_diagnostic_log lowest "2025-10-04T10:00:00" tt = inr (d, g') /\
    exists (serial : Z) (cs : list cell) (cycles : Z) (current : float),
      d = {| DiagnosticData.vehicle_id := Some ("EV-" ++ str_of_int serial)%string;
             DiagnosticData.timestamp := Some ("2025-10-04T10:00:00" ++ "Z")%string;
             DiagnosticData.cells := Some cs;
             DiagnosticData.cycle_count := Some cycles;
             DiagnosticData.nominal_capacity_kwh := Some 60.0%float;
             DiagnosticData.current_capacity_kwh := Some current |} /\
      10000 <= serial <= 99999 /\
      80 <= Z.of_nat (List.length cs) <= 120 /\
      map cell_id cs = range (Z.of_nat (List.length cs)) /\
      100 <= cycles <= 800.
Proof. exact (generated_log_shape lowest lowest_lawful "2025-10-04T10:00:00" tt). Defined.

Lemma generated_readings_in_range_witness :
  exists d g' cs,
    generate_mock_diagnostic_log lowest "2025-10-04T10:00:00" tt = inr (d, g') /\
    DiagnosticData.cells d = Some cs /\
    Forall (fun c => (3.8 <=? voltage c)%float = true /\ (voltage c <=? 4.2)%float = true /\
                     (25 <=? temperature c)%float = true /\
                     (temperature c <=? 48)%float = true) cs.
Proof. exact (generated_readings_in_range lowest lowest_lawful "2025-10-04T10:00:00" tt). Defined.

Lemma generated_soh_by_age_witness :
  exists d g' cycles s a,
    generate_mock_diagnostic_log lowest "2025-10-04T10:00:00" tt = inr (d, g') /\
    DiagnosticData.cycle_count d = Some cycles /\
    generate_report (__init__ d) = Py.Ok (report_of s cycles a) /\
    (if (cycles <? 300)%Z then (95 <=? s)%float && (s <=? 100)%float
     else if (cycles <? 600)%Z then (85 <=? s)%float && (s <=? 95)%float
     else (80 <=? s)%float && (s <=? 90)%float) = true.
Proof. exact (generated_soh_by_age lowest lowest_lawful "2025-10-04T10:00:00" tt). Defined.

Lemma generated_log_never_low_health_witness :
  exists d g' r a,
    generate_mock_diagnostic_log lowest "2025-10-04T10:00:00" tt = inr (d, g') /\
    generate_report (__init__ d) = Py.Ok r /\
    lookup "anomalies" r = Some (VList a) /\
    ~ In "Low State of Health" a.
Proof.
  exact (generated_log_never_low_health lowest lowest_lawful "2025-10-04T10:00:00" tt).
Defined.

Lemma generated_report_order_free_witness :
  exists d g' cs,
    generate_mock_diagnostic_log lowest "2025-10-04T10:00:00" tt = inr (d, g') /\
    DiagnosticData.cells d = Some cs /\
    forall cs', Permutation cs cs' ->
      generate_report (__init__ (set_cells (Some cs') d)) = generate_report (__init__ d).
Proof.
  exact (generated_report_order_free lowest lowest_lawful "2025-10-04T10:00:00" tt).
Defined.

(** The generator run on the source [lowest]: 80 cells, the first one
    unbalanced downwards, 100 cycles, and a report without low health. *)
Example generate_mock_diagnostic_log_lowest :
  match generate_mock_diagnostic_log lowest "2025-10-04T10:00:00" tt with
  | inr (d, _) =>
      DiagnosticData.vehicle_id d = Some "EV-10000"%string /\
      DiagnosticData.timestamp d = Some "2025-10-04T10:00:00Z"%string /\
      option_map (@List.length cell) (DiagnosticData.cells d) = Some 80%nat /\
      option_map (@hd_error cell) (DiagnosticData.cells d) =
        Some (Some (reading 0 3.8 43.0)) /\
      DiagnosticData.cycle_count d = Some 100 /\
      DiagnosticData.current_capacity_kwh d = Some 57.0%float /\
      generate_report (__init__ d) =
        Py.Ok (report_of 95 100 ["Voltage imbalance detected"])
  | inl _ => False
  end.
Proof. vm_compute. repeat split. Qed.
